(** * tensorpack/models/conv2d.py: the Conv2D and Conv2DTranspose layer wrappers

    A shallow embedding of the two layer constructors of [conv2d.py] and of
    the custom variable getter they share.  TensorFlow 1.x builds a graph:
    a call of a framework primitive returns a node of that graph, so tensors
    are modelled as terms over the primitives the module calls.  Variable
    creation is the one effect the module has (through [tf.get_variable] and
    the framework layers), so it is threaded through a state-and-exception
    monad whose state is the list of variables created so far.

    The functions are embedded as their [def] has them.  The decorators
    [layer_register] and [convert_to_tflayer_args] change how a layer is
    called (a scope name first, old argument names accepted), not what its
    body does, and are left out; variable names are the names relative to
    the scope the call runs in. *)

From Stdlib Require Import ZArith QArith Lia Bool Ascii String.
From stdpp Require Import base option list strings gmap.

Local Open Scope Z_scope.

(** ** Python values the module handles *)

(** The exceptions that can leave the functions of the module. *)
Inductive exn :=
| AssertionError | ValueError | TypeError | NameError
| ZeroDivisionError | IndexError | RuntimeError.

Inductive outcome (A : Type) :=
| Ok (a : A)
| Raise (e : exn).
Arguments Ok {A} a.
Arguments Raise {A} e.

(** The framework version as [get_tf_version_tuple] returns it: a pair
    [(major, minor)], compared as Python compares tuples. *)
Definition version : Type := nat * nat.

Definition ver_leb (a b : version) : bool :=
  (fst a <? fst b)%nat || ((fst a =? fst b)%nat && (snd a <=? snd b)%nat).

Definition ver_geb (a b : version) : bool := ver_leb b a.

(** [kernel_size], [strides] and [dilation_rate] are an int or a sequence of
    ints. *)
Inductive pyshape :=
| PInt (n : Z)
| PSeq (l : list Z).

(** An entry of a shape: an int, a float (the result of [/]) or [None]. *)
Inductive dim :=
| dim_int (z : Z)
| dim_float (q : Q)
| dim_unknown.

Definition dim_value (d : dim) : option Q :=
  match d with
  | dim_int z => Some (inject_Z z)
  | dim_float q => Some q
  | dim_unknown => None
  end.

(** Python 3 [a / b] on ints: true division, the float nearest to the
    quotient.  The embedding takes the quotient itself, which is that float
    whenever it is an integer below 2^53 in magnitude, as a channel count
    is. *)
Definition truediv (a b : Z) : dim := dim_float (inject_Z a / inject_Z b)%Q.

Inductive dtype := float16 | float32 | float64.

#[export] Instance dtype_eq_dec : EqDecision dtype.
Proof. solve_decision. Defined.

Inductive initializer :=
| variance_scaling_initializer (factor : Q) (seed : option Z)
    (* tf.contrib.layers.variance_scaling_initializer *)
| VarianceScaling (scale : Q) (distribution : string) (seed : option Z)
    (* tf.keras.initializers.VarianceScaling *)
| zeros_initializer
| user_initializer (id : nat).

(** Regularizers and activations are callables the module only passes on.
    They are the caller's code: the embedding names them and records where
    the module applies them, and does not model what calling one does (it
    could raise, or create variables of its own). *)
Definition regularizer : Type := nat.
Definition activation_fn : Type := nat.

(** A shape handed to [tf.get_variable], or left to the framework layer. *)
Inductive shape_spec :=
| ExplicitShape (dims : list dim)
| LayerDecided.

Record var_record := {
  var_name : string;
  var_shape : option shape_spec;
  var_dtype : option dtype;
  var_initializer : option initializer;
  var_regularizer : option regularizer;
  var_trainable : bool
}.

Inductive layer_kind := LConv2D | LConv2DTranspose.

(** The keyword arguments the module hands to [tf.layers.Conv2D] and
    [tf.layers.Conv2DTranspose]. *)
Record layer_cfg := {
  cfg_filters : Z;
  cfg_kernel_size : pyshape;
  cfg_strides : pyshape;
  cfg_padding : string;
  cfg_data_format : string;
  cfg_dilation_rate : option (list Z);
  cfg_activation : option activation_fn;
  cfg_use_bias : bool;
  cfg_kernel_initializer : initializer;
  cfg_bias_initializer : initializer;
  cfg_kernel_regularizer : option regularizer;
  cfg_bias_regularizer : option regularizer;
  cfg_activity_regularizer : option regularizer
}.

(** Graph nodes: one constructor per framework primitive the module calls. *)
#[warnings="-register-all"]
Inductive tensor :=
| Input (id : nat)
| Op_variable (v : var_record)
| Op_cast (x : tensor) (dt : option dtype)
| Op_conv2d (input filter : tensor) (strides : list Z) (padding : string)
    (data_format : string) (dilations : option (list Z))
| Op_conv2d_transpose (input filter output_shape : tensor) (strides : list Z)
    (padding : string) (data_format : string)
| Op_bias_add (value bias : tensor) (data_format : string)
| Op_split_part (value : tensor) (num : Z) (axis : Z) (i : nat)
| Op_concat (values : list tensor) (axis : Z)
| Op_activation (f : activation_fn) (x : tensor)
| Op_identity (x : tensor) (name : string)
| Op_layer (kind : layer_kind) (cfg : layer_cfg) (inputs kernel : tensor)
    (bias : option tensor)
| Op_shape (x : tensor)
| Op_getitem (x : tensor) (i : Z)
| Op_mul (x : tensor) (k : Z)
| Op_const (k : Z)
| Op_stack (values : list tensor)
| Op_set_shape (x : tensor) (shape : list (option Z)).

(** ** The monad: variables created so far, and exceptions *)

Definition store : Type := list var_record.

Definition M (A : Type) : Type := store -> outcome A * store.

#[export] Instance M_ret : MRet M := fun A a s => (Ok a, s).

#[export] Instance M_bind : MBind M := fun A B f m s =>
  match m s with
  | (Ok a, s') => f a s'
  | (Raise e, s') => (Raise e, s')
  end.

Definition raise {A} (e : exn) : M A := fun s => (Raise e, s).

Definition lift {A} (o : outcome A) : M A := fun s => (o, s).

(** [assert c]. *)
Definition assert (c : bool) : M unit :=
  if c then mret tt else raise AssertionError.

(** [l[i]] on a Python list, negative indices counting from the end. *)
Definition py_index {A} (l : list A) (i : Z) : outcome A :=
  let j := if i <? 0 then i + Z.of_nat (length l) else i in
  if j <? 0 then Raise IndexError
  else match l !! Z.to_nat j with
       | Some x => Ok x
       | None => Raise IndexError
       end.

(** [str.upper] on the ASCII letters. *)
Definition upper_ascii (c : ascii) : ascii :=
  let n := nat_of_ascii c in
  if ((97 <=? n) && (n <=? 122))%nat then ascii_of_nat (n - 32) else c.

Fixpoint upper (s : string) : string :=
  match s with
  | EmptyString => EmptyString
  | String c r => String (upper_ascii c) (upper r)
  end.

Definition list_Z_eqb (a b : list Z) : bool := bool_decide (a = b).

(** ** What the module imports

    [get_tf_version_tuple] (tfutils.common) and [get_data_format], [shape2d],
    [shape4d] (utils.argtools) are imported by [conv2d.py] and defined
    elsewhere; the framework's static shape inference and the conditions
    under which [tf.nn.conv2d] raises belong to the framework.  They are the
    interface the embedding is parametric in. *)
Class Env := {
  (** the running framework's [(major, minor)] *)
  get_tf_version_tuple : version;
  (** [get_data_format(data_format, tfmode=False)] *)
  get_data_format : string -> outcome string;
  shape2d : pyshape -> outcome (list Z);
  (** [shape4d(a, data_format=...)] *)
  shape4d : pyshape -> string -> outcome (list Z);
  (** [x.get_shape()]: [None] when the rank is unknown, and per axis [None]
      for an unknown dimension *)
  get_shape : tensor -> option (list (option Z));
  (** the exception, if any, [tf.nn.conv2d] raises on these arguments *)
  conv2d_raises : tensor -> tensor -> list Z -> string -> string ->
                  option (list Z) -> option exn
}.

(** Keyword arguments of [Conv2D], after [inputs], [filters], [kernel_size]. *)
Record Conv2D_kwargs := {
  strides : pyshape;
  padding : string;
  data_format : string;
  dilation_rate : pyshape;
  activation : option activation_fn;
  use_bias : bool;
  kernel_initializer : option initializer;
  bias_initializer : initializer;
  kernel_regularizer : option regularizer;
  bias_regularizer : option regularizer;
  activity_regularizer : option regularizer;
  split : Z;
  seed : option Z
}.

(** The defaults of the [def Conv2D(...)] line. *)
Definition Conv2D_defaults : Conv2D_kwargs := {|
  strides := PSeq [1; 1];
  padding := "same";
  data_format := "channels_last";
  dilation_rate := PSeq [1; 1];
  activation := None;
  use_bias := true;
  kernel_initializer := None;
  bias_initializer := zeros_initializer;
  kernel_regularizer := None;
  bias_regularizer := None;
  activity_regularizer := None;
  split := 1;
  seed := None
|}.

(** Keyword arguments of [Conv2DTranspose]. *)
Record Conv2DTranspose_kwargs := {
  T_strides : pyshape;
  T_padding : string;
  T_data_format : string;
  T_activation : option activation_fn;
  T_use_bias : bool;
  T_kernel_initializer : option initializer;
  T_bias_initializer : initializer;
  T_kernel_regularizer : option regularizer;
  T_bias_regularizer : option regularizer;
  T_activity_regularizer : option regularizer;
  T_seed : option Z
}.

(** The defaults of the [def Conv2DTranspose(...)] line. *)
Definition Conv2DTranspose_defaults : Conv2DTranspose_kwargs := {|
  T_strides := PSeq [1; 1];
  T_padding := "same";
  T_data_format := "channels_last";
  T_activation := None;
  T_use_bias := true;
  T_kernel_initializer := None;
  T_bias_initializer := zeros_initializer;
  T_kernel_regularizer := None;
  T_bias_regularizer := None;
  T_activity_regularizer := None;
  T_seed := None
|}.

(** What a layer function returns: the output tensor with its [variables]
    attribute.  A [VariableHolder] maps attribute names to what was stored. *)
Record layer_result := {
  ret : tensor;
  variables : gmap string (option tensor)
}.

(** [__all__]. *)
Definition all__ : list string := ["Conv2D"; "Deconv2D"; "Conv2DTranspose"].

(** ** The framework side *)

(** The signature of a variable getter: [getter(name, shape, dtype=...,
    initializer=..., regularizer=..., trainable=...)]. *)
Definition getter_t : Type :=
  string -> option shape_spec -> option dtype -> option initializer ->
  option regularizer -> bool -> M tensor.

(** A custom getter receives the getter it wraps as first argument. *)
Definition custom_getter_t : Type := getter_t -> getter_t.

(** What can be passed as [custom_getter=]: a callable, or some tensor. *)
Inductive pyobj :=
| PyCallable (g : custom_getter_t)
| PyTensor (t : tensor).

(** The framework's own getter: creates the variable and records it. *)
Definition true_getter : getter_t :=
  fun name shape dtype initializer regularizer trainable s =>
    let v := {| var_name := name; var_shape := shape; var_dtype := dtype;
                var_initializer := initializer;
                var_regularizer := regularizer;
                var_trainable := trainable |} in
    (Ok (Op_variable v), s ++ [v]).

(** [tf.get_variable(name, shape, initializer=initializer)] in a scope
    without custom getter.  The store records what the module asks the
    framework to create; the framework refusing a request (a name already
    taken in the scope, a shape it rejects) is not modelled. *)
Definition tf_get_variable (name : string) (shape : list dim)
    (initializer : initializer) : M tensor :=
  true_getter name (Some (ExplicitShape shape)) None (Some initializer) None true.

(** [with tf.variable_scope(scope, custom_getter=g): tf.get_variable(...)]:
    the variable store refuses a custom getter that is not callable, and
    otherwise calls it with its own getter and the scope's dtype. *)
Definition tf_get_variable_in_scope (custom_getter : pyobj) (name : string)
    (shape : list dim) (initializer : initializer) : M tensor :=
  match custom_getter with
  | PyCallable g =>
      g true_getter name (Some (ExplicitShape shape)) (Some float32)
        (Some initializer) None true
  | PyTensor _ => raise ValueError
  end.

(** Modelled from the spec: [rename_get_variable] (models/tflayer.py) is not
    among the sources.  The spec names the variable-naming convention the
    wrappers add over the framework layers, and the module installs the
    mapping [{'kernel': 'W', 'bias': 'b'}] around them: a variable asked for
    under a key of the mapping is created under the mapped name, any other
    under its own. *)
Definition rename_get_variable (mapping : gmap string string) (name : string)
    : string :=
  default name (mapping !! name).

(** A framework layer object after [layer.apply(inputs)]. *)
Record layer := {
  layer_output : tensor;
  layer_kernel : tensor;
  layer_bias : option tensor
}.

(** [tf.layers.Conv2D(...)] / [tf.layers.Conv2DTranspose(...)] followed by
    [.apply(inputs)]: the layer asks the scope for its weight under the name
    [kernel] and, when [use_bias], for its bias under the name [bias]; the
    names pass through the [rename] installed around the call. *)
Definition tf_layers_apply (kind : layer_kind) (rename : string -> string)
    (cfg : layer_cfg) (inputs : tensor) : M layer :=
  kernel ← true_getter (rename "kernel") (Some LayerDecided) None
             (Some (cfg_kernel_initializer cfg)) (cfg_kernel_regularizer cfg)
             true;
  bias ← (if cfg_use_bias cfg
          then b ← true_getter (rename "bias") (Some LayerDecided) None
                     (Some (cfg_bias_initializer cfg))
                     (cfg_bias_regularizer cfg) true;
               mret (Some b)
          else mret None);
  mret {| layer_output := Op_layer kind cfg inputs kernel bias;
          layer_kernel := kernel;
          layer_bias := bias |}.

(** [tf.nn.conv2d(input, filter, strides, padding, data_format=...,
    dilations=...)]; [dilations] is [None] when the keyword is not passed. *)
Definition tf_nn_conv2d `{Env} (input filter : tensor) (strides : list Z)
    (padding : string) (data_format : string) (dilations : option (list Z))
    : M tensor :=
  match conv2d_raises input filter strides padding data_format dilations with
  | Some e => raise e
  | None => mret (Op_conv2d input filter strides padding data_format dilations)
  end.

(** [tf.split(value, num, axis)]: the list of the [num] parts. *)
Definition tf_split (value : tensor) (num : Z) (axis : Z) : list tensor :=
  map (Op_split_part value num axis) (seq 0 (Z.to_nat num)).

(** [shape.as_list()]: not defined on a shape of unknown rank. *)
Definition as_list (sh : option (list (option Z)))
    : outcome (list (option Z)) :=
  match sh with
  | Some l => Ok l
  | None => Raise ValueError
  end.

(** [x.shape[i]]: unknown when the rank is. *)
Definition shape_getitem (sh : option (list (option Z))) (i : Z)
    : outcome (option Z) :=
  match sh with
  | Some l => py_index l i
  | None => Ok None
  end.

(** [a % b] on ints. *)
Definition py_mod (a b : Z) : outcome Z :=
  if b =? 0 then Raise ZeroDivisionError else Ok (a mod b).

(** Modelled from the spec: [VariableHolder] (models/common.py) is not among
    the sources.  The spec has the layer's parameter tensors held under their
    names; the holder is the dictionary from attribute name to what was
    stored, built from the constructor's keywords and extended by attribute
    assignment. *)
Definition VariableHolder (kwargs : list (string * option tensor))
    : gmap string (option tensor) :=
  list_to_map kwargs.

Definition holder_setattr (h : gmap string (option tensor)) (name : string)
    (v : option tensor) : gmap string (option tensor) :=
  <[name := v]> h.

(** [log_once] is neither defined nor imported in [conv2d.py]: evaluating
    the name raises [NameError]. *)
Definition log_once (msg : string) (level : string) : M unit :=
  raise NameError.

(** ** conv2d.py *)

(** [float32_variable_storage_getter], lines 16-30. *)
Definition float32_variable_storage_getter : custom_getter_t :=
  fun getter name shape dtype initializer regularizer trainable =>
    let storage_dtype := if trainable then Some float32 else dtype in
    variable ← getter name shape storage_dtype initializer regularizer
                 trainable;
    if trainable && bool_decide (dtype ≠ Some float32)
    then mret (Op_cast variable dtype)
    else mret variable.

(** A call of [float32_variable_storage_getter] as Python binds it:
    [getter] and [name] have no default, the others default to [None],
    [trainable] to [True]. *)
Definition call_float32_variable_storage_getter
    (getter : option getter_t) (name : option string)
    (shape : option shape_spec) (dtype : option dtype)
    (initializer : option initializer) (regularizer : option regularizer)
    (trainable : option bool) : M tensor :=
  match getter, name with
  | Some g, Some n =>
      float32_variable_storage_getter g n shape dtype initializer regularizer
        (default true trainable)
  | _, _ => raise TypeError
  end.

(** Lines 70-74 of [Conv2D] and 196-200 of [Conv2DTranspose], the same
    statement in both: [if kernel_initializer is None: ...]. *)
Definition resolve_kernel_initializer `{Env}
    (kernel_initializer : option initializer) (seed : option Z)
    : initializer :=
  match kernel_initializer with
  | None =>
      if ver_leb get_tf_version_tuple (1, 12)%nat
      then variance_scaling_initializer 2 seed
      else VarianceScaling 2 "untruncated_normal" seed
  | Some k => k
  end.

(** Lines 132-148 of [Conv2D]: the convolution itself, once [W] exists.
    The [try] catches [ValueError] only; its handler calls [log_once]. *)
Definition group_conv `{Env} (inputs W : tensor) (stride : list Z)
    (padding : string) (data_format : string) (dilations : option (list Z))
    (split : Z) (channel_axis : Z) : M tensor :=
  if split =? 1 then
    tf_nn_conv2d inputs W stride (upper padding) data_format dilations
  else
    conv ←
      (if ver_geb get_tf_version_tuple (1, 13)%nat then
         fun s =>
           match tf_nn_conv2d inputs W stride (upper padding) data_format
                   dilations s with
           | (Raise ValueError, s') =>
               (log_once "CUDNN group convolution support is only available with https://github.com/tensorflow/tensorflow/pull/25818 . Will fall back to a loop-based slow implementation instead!" "warn";;
                mret None) s'
           | (Raise e, s') => (Raise e, s')
           | (Ok c, s') => (Ok (Some c), s')
           end
       else mret None);
    match conv with
    | Some c => mret c
    | None =>
        let inputs := tf_split inputs split channel_axis in
        let kernels := tf_split W split 3 in
        outputs ← mapM (fun ik : tensor * tensor =>
                          tf_nn_conv2d ik.1 ik.2 stride (upper padding)
                            data_format dilations)
                       (zip inputs kernels);
        mret (Op_concat outputs channel_axis)
    end.

(** [Conv2D], lines 40-158; lines 132-148 are [group_conv] above. *)
Definition Conv2D `{Env} (inputs : tensor) (filters : Z)
    (kernel_size : pyshape) (a : Conv2D_kwargs) : M layer_result :=
  let kernel_initializer :=
    resolve_kernel_initializer (kernel_initializer a) (seed a) in
  dilation_rate ← lift (shape2d (dilation_rate a));
  if (split a =? 1) && list_Z_eqb dilation_rate [1; 1] then
    layer ← tf_layers_apply LConv2D
              (rename_get_variable {[ "kernel" := "W"; "bias" := "b" ]})
              {| cfg_filters := filters;
                 cfg_kernel_size := kernel_size;
                 cfg_strides := strides a;
                 cfg_padding := padding a;
                 cfg_data_format := data_format a;
                 cfg_dilation_rate := Some dilation_rate;
                 cfg_activation := activation a;
                 cfg_use_bias := use_bias a;
                 cfg_kernel_initializer := kernel_initializer;
                 cfg_bias_initializer := bias_initializer a;
                 cfg_kernel_regularizer := kernel_regularizer a;
                 cfg_bias_regularizer := bias_regularizer a;
                 cfg_activity_regularizer := activity_regularizer a |}
              inputs;
    let ret := Op_identity (layer_output layer) "output" in
    let variables := VariableHolder [("W", Some (layer_kernel layer))] in
    let variables :=
      if use_bias a then holder_setattr variables "b" (layer_bias layer)
      else variables in
    mret {| ret := ret; variables := variables |}
  else
    (* group conv implementation *)
    data_format ← lift (get_data_format (data_format a));
    in_shape ← lift (as_list (get_shape inputs));
    let channel_axis := if String.eqb data_format "NHWC" then 3 else 1 in
    in_channel ← lift (py_index in_shape channel_axis);
    match in_channel with
    | None => raise AssertionError
    | Some in_channel =>
        r ← lift (py_mod in_channel (split a));
        assert (r =? 0);;
        assert (bool_decide (kernel_regularizer a = None)
                && bool_decide (bias_regularizer a = None)
                && bool_decide (activity_regularizer a = None));;
        let out_channel := filters in
        r ← lift (py_mod out_channel (split a));
        assert (r =? 0);;
        assert (list_Z_eqb dilation_rate [1; 1]
                || ver_geb get_tf_version_tuple (1, 5)%nat);;
        kernel_shape ← lift (shape2d kernel_size);
        let filter_shape :=
          (dim_int <$> kernel_shape)
          ++ [truediv in_channel (split a); dim_int out_channel] in
        stride ← lift (shape4d (strides a) data_format);
        dilations ←
          (if ver_geb get_tf_version_tuple (1, 5)%nat
           then d ← lift (shape4d (PSeq dilation_rate) data_format);
                mret (Some d)
           else mret None);
        W ← tf_get_variable "W" filter_shape kernel_initializer;
        b ← (if use_bias a
             then b ← tf_get_variable "b" [dim_int out_channel]
                        (bias_initializer a);
                  mret (Some b)
             else mret None);
        conv ← group_conv inputs W stride (padding a) data_format dilations
                 (split a) channel_axis;
        let ret :=
          match b with
          | Some b => Op_bias_add conv b data_format
          | None => conv
          end in
        let ret :=
          match activation a with
          | Some f => Op_activation f ret
          | None => ret
          end in
        let ret := Op_identity ret "output" in
        let variables := VariableHolder [("W", Some W)] in
        let variables :=
          if use_bias a then holder_setattr variables "b" b else variables in
        mret {| ret := ret; variables := variables |}
    end.

(** [Conv2DTranspose], lines 169-273.  Lines 252 and 255 are written with a
    doubled comma after the scope argument; the call is read with the two
    arguments that are written, the scope and [custom_getter=...]. *)
Definition Conv2DTranspose `{Env} (inputs : tensor) (filters : Z)
    (kernel_size : pyshape) (a : Conv2DTranspose_kwargs) : M layer_result :=
  let kernel_initializer :=
    resolve_kernel_initializer (T_kernel_initializer a) (T_seed a) in
  if ver_leb get_tf_version_tuple (1, 12)%nat then
    layer ← tf_layers_apply LConv2DTranspose
              (rename_get_variable {[ "kernel" := "W"; "bias" := "b" ]})
              {| cfg_filters := filters;
                 cfg_kernel_size := kernel_size;
                 cfg_strides := T_strides a;
                 cfg_padding := T_padding a;
                 cfg_data_format := T_data_format a;
                 cfg_dilation_rate := None;
                 cfg_activation := T_activation a;
                 cfg_use_bias := T_use_bias a;
                 cfg_kernel_initializer := kernel_initializer;
                 cfg_bias_initializer := T_bias_initializer a;
                 cfg_kernel_regularizer := T_kernel_regularizer a;
                 cfg_bias_regularizer := T_bias_regularizer a;
                 cfg_activity_regularizer := T_activity_regularizer a |}
              inputs;
    let ret := Op_identity (layer_output layer) "output" in
    let variables := VariableHolder [("W", Some (layer_kernel layer))] in
    let variables :=
      if T_use_bias a then holder_setattr variables "b" (layer_bias layer)
      else variables in
    mret {| ret := ret; variables := variables |}
  else
    (* Our own implementation, to avoid Keras bugs. *)
    assert (bool_decide (T_kernel_regularizer a = None)
            && bool_decide (T_bias_regularizer a = None)
            && bool_decide (T_activity_regularizer a = None));;
    data_format ← lift (get_data_format (T_data_format a));
    let shape_dyn := Op_shape inputs in
    strides2d ← lift (shape2d (T_strides a));
    let nchw := String.eqb data_format "NCHW" in
    _ ← lift (shape_getitem (get_shape inputs) (if nchw then 1 else 3));
    '(channels_in, out_shape_dyn, out_shape3_sta) ←
      (if nchw then
         channels_in ← lift (shape_getitem (get_shape inputs) 1);
         s0 ← lift (py_index strides2d 0);
         s1 ← lift (py_index strides2d 1);
         let out_shape_dyn :=
           Op_stack [Op_getitem shape_dyn 0; Op_const filters;
                     Op_mul (Op_getitem shape_dyn 2) s0;
                     Op_mul (Op_getitem shape_dyn 3) s1] in
         d2 ← lift (shape_getitem (get_shape inputs) 2);
         d3 ← lift (shape_getitem (get_shape inputs) 3);
         mret (channels_in, out_shape_dyn,
               [Some filters; (λ d, d * s0) <$> d2; (λ d, d * s1) <$> d3])
       else
         channels_in ← lift (shape_getitem (get_shape inputs) (-1));
         s0 ← lift (py_index strides2d 0);
         s1 ← lift (py_index strides2d 1);
         let out_shape_dyn :=
           Op_stack [Op_getitem shape_dyn 0;
                     Op_mul (Op_getitem shape_dyn 1) s0;
                     Op_mul (Op_getitem shape_dyn 2) s1;
                     Op_const filters] in
         d1 ← lift (shape_getitem (get_shape inputs) 1);
         d2 ← lift (shape_getitem (get_shape inputs) 2);
         mret (channels_in, out_shape_dyn,
               [(λ d, d * s0) <$> d1; (λ d, d * s1) <$> d2; Some filters]));
    kernel_shape ← lift (shape2d kernel_size);
    custom_getter ← call_float32_variable_storage_getter None None None
                      (Some float16) None None None;
    W ← tf_get_variable_in_scope (PyTensor custom_getter) "W"
          ((dim_int <$> kernel_shape)
           ++ [dim_int filters; from_option dim_int dim_unknown channels_in])
          kernel_initializer;
    b ← (if T_use_bias a then
           custom_getter ← call_float32_variable_storage_getter None None
                             None (Some float16) None None None;
           b ← tf_get_variable_in_scope (PyTensor custom_getter) "b"
                 [dim_int filters] (T_bias_initializer a);
           mret (Some b)
         else mret None);
    stride ← lift (shape4d (T_strides a) data_format);
    let conv :=
      Op_conv2d_transpose inputs W out_shape_dyn stride (upper (T_padding a))
        data_format in
    let conv := Op_set_shape conv (None :: out_shape3_sta) in
    let ret :=
      match b with
      | Some b => Op_bias_add conv b data_format
      | None => conv
      end in
    let ret :=
      match T_activation a with
      | Some f => Op_activation f ret
      | None => ret
      end in
    let ret := Op_identity ret "output" in
    let variables := VariableHolder [("W", Some W)] in
    let variables :=
      if T_use_bias a then holder_setattr variables "b" b else variables in
    mret {| ret := ret; variables := variables |}.

(** [Deconv2D = Conv2DTranspose], line 276. *)
Definition Deconv2D `{Env} := Conv2DTranspose.

(** ** A reference instance of the imported interface

    The helpers as tensorpack's [utils.argtools] defines them, an input of a
    given static shape, and a framework that either accepts every
    [tf.nn.conv2d] call or, without grouped-convolution support, rejects a
    filter whose input depth differs from the input's: in that second case
    only the calls on the parts of a [tf.split] go through. *)
Definition ref_get_data_format (s : string) : outcome string :=
  if String.eqb s "channels_first" || String.eqb s "NCHW" then Ok "NCHW"
  else if String.eqb s "channels_last" || String.eqb s "NHWC" then Ok "NHWC"
  else Raise ValueError.

Definition ref_shape2d (a : pyshape) : outcome (list Z) :=
  match a with
  | PInt n => Ok [n; n]
  | PSeq [x; y] => Ok [x; y]
  | PSeq _ => Raise AssertionError
  end.

Definition ref_shape4d (a : pyshape) (data_format : string)
    : outcome (list Z) :=
  match ref_shape2d a with
  | Ok s2d =>
      if String.eqb data_format "NHWC" then Ok ([1] ++ s2d ++ [1])
      else Ok ([1; 1] ++ s2d)
  | Raise e => Raise e
  end.

Definition ref_env (v : version) (in_shape : option (list (option Z)))
    (grouped_conv : bool) : Env := {|
  get_tf_version_tuple := v;
  get_data_format := ref_get_data_format;
  shape2d := ref_shape2d;
  shape4d := ref_shape4d;
  get_shape := fun _ => in_shape;
  conv2d_raises := fun input _ _ _ _ _ =>
    if grouped_conv then None
    else match input with
         | Op_split_part _ _ _ _ => None
         | _ => Some ValueError
         end
|}.

(** ** Notions the properties are stated with *)

(** A computation that leaves the store as it found it, whatever it
    returns or raises. *)
Definition pure_M {A} (m : M A) : Prop := ∀ s, (m s).2 = s.


(** The convolution node of an output: what is left once the identity, the
    activation, the bias addition and the static-shape annotation the layer
    functions put around it are taken off. *)
Fixpoint conv_core (t : tensor) : tensor :=
  match t with
  | Op_identity x _ => conv_core x
  | Op_activation _ x => conv_core x
  | Op_bias_add x _ _ => conv_core x
  | Op_set_shape x _ => conv_core x
  | _ => t
  end.



(** The node of one [tf.nn.conv2d] call on a pair (input, filter). *)
Definition conv2d_node (stride : list Z) (pad df : string)
    (dil : option (list Z)) (ik : tensor * tensor) : tensor :=
  Op_conv2d ik.1 ik.2 stride pad df dil.

(** The test of line 77: [split == 1 and dilation_rate == [1, 1]]. *)
Definition fast_path (a : Conv2D_kwargs) (dil : list Z) : bool :=
  (split a =? 1) && list_Z_eqb dil [1; 1].

(** A holder entry [attr] that is a variable created under [name]. *)
Definition holds_variable (h : gmap string (option tensor))
    (attr name : string) (v : var_record) : Prop :=
  h !! attr = Some (Some (Op_variable v)) ∧ var_name v = name.

(** Lines 122-124: the [dilations] keyword is passed from version (1,5) on. *)
Definition dilations_kwarg `{Env} (dil : list Z) (df : string)
    : outcome (option (list Z)) :=
  if ver_geb get_tf_version_tuple (1, 5)%nat
  then match shape4d (PSeq dil) df with
       | Ok d => Ok (Some d)
       | Raise e => Raise e
       end
  else Ok None.

(** The records of the variables the group-conv implementation asks for. *)
Definition W_record `{Env} (a : Conv2D_kwargs) (kernel_shape : list Z)
    (in_channel filters : Z) : var_record :=
  {| var_name := "W";
     var_shape := Some (ExplicitShape
                          ((dim_int <$> kernel_shape)
                           ++ [truediv in_channel (split a); dim_int filters]));
     var_dtype := None;
     var_initializer :=
       Some (resolve_kernel_initializer (kernel_initializer a) (seed a));
     var_regularizer := None;
     var_trainable := true |}.

Definition b_record (a : Conv2D_kwargs) (filters : Z) : var_record :=
  {| var_name := "b";
     var_shape := Some (ExplicitShape [dim_int filters]);
     var_dtype := None;
     var_initializer := Some (bias_initializer a);
     var_regularizer := None;
     var_trainable := true |}.

(** Lines 150-157 on a convolution node [conv]: bias, activation, the
    [output] identity and the holder. *)
Definition own_result (a : Conv2D_kwargs) (df : string) (conv : tensor)
    (W b : var_record) : layer_result :=
  let biased :=
    if use_bias a then Op_bias_add conv (Op_variable b) df else conv in
  let activated :=
    match activation a with
    | Some f => Op_activation f biased
    | None => biased
    end in
  {| ret := Op_identity activated "output";
     variables :=
       if use_bias a
       then <["b" := Some (Op_variable b)]> {["W" := Some (Op_variable W)]}
       else {["W" := Some (Op_variable W)]} |}.

(** The loop-based grouped convolution of lines 144-148, as a node. *)
Definition loop_conv (inputs W : tensor) (groups : Z) (channel_axis : Z)
    (stride : list Z) (pad df : string) (dil : option (list Z)) : tensor :=
  Op_concat
    (conv2d_node stride pad df dil
       <$> zip (tf_split inputs groups channel_axis) (tf_split W groups 3))
    channel_axis.

(** What lines 104-124 of [Conv2D] need in order to get to the creation of
    [W]: the helpers return ([dil], [df], [kernel_shape], [stride],
    [dilations]), the test of line 77 fails, the input has a known rank with
    a known channel count [c], and the five assertions hold. *)
Definition group_conv_ready `{Env} (inputs : tensor) (filters : Z)
    (kernel_size : pyshape) (a : Conv2D_kwargs) (dil : list Z) (df : string)
    (sh : list (option Z)) (c : Z) (kernel_shape stride : list Z)
    (dilations : option (list Z)) : Prop :=
  shape2d (dilation_rate a) = Ok dil
  ∧ fast_path a dil = false
  ∧ get_data_format (data_format a) = Ok df
  ∧ get_shape inputs = Some sh
  ∧ py_index sh (if String.eqb df "NHWC" then 3 else 1) = Ok (Some c)
  ∧ split a ≠ 0
  ∧ c mod split a = 0
  ∧ (kernel_regularizer a = None ∧ bias_regularizer a = None
     ∧ activity_regularizer a = None)
  ∧ filters mod split a = 0
  ∧ (dil = [1; 1] ∨ ver_geb get_tf_version_tuple (1, 5)%nat = true)
  ∧ shape2d kernel_size = Ok kernel_shape
  ∧ shape4d (strides a) df = Ok stride
  ∧ dilations_kwarg dil df = Ok dilations.

(** The arguments [Conv2D] and [Conv2DTranspose] hand to the framework
    layer. *)
Definition Conv2D_cfg `{Env} (filters : Z) (kernel_size : pyshape)
    (a : Conv2D_kwargs) (dil : list Z) : layer_cfg :=
  {| cfg_filters := filters;
     cfg_kernel_size := kernel_size;
     cfg_strides := strides a;
     cfg_padding := padding a;
     cfg_data_format := data_format a;
     cfg_dilation_rate := Some dil;
     cfg_activation := activation a;
     cfg_use_bias := use_bias a;
     cfg_kernel_initializer :=
       resolve_kernel_initializer (kernel_initializer a) (seed a);
     cfg_bias_initializer := bias_initializer a;
     cfg_kernel_regularizer := kernel_regularizer a;
     cfg_bias_regularizer := bias_regularizer a;
     cfg_activity_regularizer := activity_regularizer a |}.

Definition Conv2DTranspose_cfg `{Env} (filters : Z) (kernel_size : pyshape)
    (a : Conv2DTranspose_kwargs) : layer_cfg :=
  {| cfg_filters := filters;
     cfg_kernel_size := kernel_size;
     cfg_strides := T_strides a;
     cfg_padding := T_padding a;
     cfg_data_format := T_data_format a;
     cfg_dilation_rate := None;
     cfg_activation := T_activation a;
     cfg_use_bias := T_use_bias a;
     cfg_kernel_initializer :=
       resolve_kernel_initializer (T_kernel_initializer a) (T_seed a);
     cfg_bias_initializer := T_bias_initializer a;
     cfg_kernel_regularizer := T_kernel_regularizer a;
     cfg_bias_regularizer := T_bias_regularizer a;
     cfg_activity_regularizer := T_activity_regularizer a |}.

(** The records of the variables a framework layer creates under the
    renaming [{'kernel': 'W', 'bias': 'b'}]. *)
Definition layer_W_record (cfg : layer_cfg) : var_record :=
  {| var_name := "W";
     var_shape := Some LayerDecided;
     var_dtype := None;
     var_initializer := Some (cfg_kernel_initializer cfg);
     var_regularizer := cfg_kernel_regularizer cfg;
     var_trainable := true |}.

Definition layer_b_record (cfg : layer_cfg) : var_record :=
  {| var_name := "b";
     var_shape := Some LayerDecided;
     var_dtype := None;
     var_initializer := Some (cfg_bias_initializer cfg);
     var_regularizer := cfg_bias_regularizer cfg;
     var_trainable := true |}.

(** The result of the framework-layer paths (lines 79-100 and 203-222). *)
Definition wrapped_result (kind : layer_kind) (cfg : layer_cfg)
    (inputs : tensor) : layer_result :=
  let W := Op_variable (layer_W_record cfg) in
  let b := if cfg_use_bias cfg
           then Some (Op_variable (layer_b_record cfg)) else None in
  {| ret := Op_identity (Op_layer kind cfg inputs W b) "output";
     variables :=
       if cfg_use_bias cfg then <["b" := b]> {["W" := Some W]}
       else {["W" := Some W]} |}.

(** The variables a call has added to the store. *)
Definition created (use_bias : bool) (W b : var_record) : list var_record :=
  W :: (if use_bias then [b] else []).

(** The naming convention on a result [r] of a call that took the store
    from [s] to [s']: the holder has [W], a variable created under the name
    [W]; it has [b], a variable created under the name [b], exactly when
    [use_bias]; it has nothing else; and these variables are all the call
    has created. *)
Definition naming_convention (use_bias : bool) (r : layer_result)
    (s s' : store) : Prop :=
  ∃ W b,
    holds_variable (variables r) "W" "W" W
    ∧ (if use_bias then holds_variable (variables r) "b" "b" b
       else variables r !! "b" = None)
    ∧ (is_Some (variables r !! "b") ↔ use_bias = true)
    ∧ dom (variables r) ⊆ {[ "W"; "b" ]}
    ∧ s' = s ++ created use_bias W b.

(** The default of line 70-74 and 196-200 for the running version. *)
Definition default_kernel_initializer `{Env} (seed : option Z) : initializer :=
  if ver_leb get_tf_version_tuple (1, 12)%nat
  then variance_scaling_initializer 2 seed
  else VarianceScaling 2 "untruncated_normal" seed.

(** ** Sample calls *)

(** A 4-channel NHWC input with unknown batch size. *)
Definition sample_shape : option (list (option Z)) :=
  Some [None; Some 8; Some 8; Some 4].

(** [Conv2D(..., split=2)], everything else at its default. *)
Definition grouped_kwargs : Conv2D_kwargs := {|
  strides := PSeq [1; 1];
  padding := "same";
  data_format := "channels_last";
  dilation_rate := PSeq [1; 1];
  activation := None;
  use_bias := true;
  kernel_initializer := None;
  bias_initializer := zeros_initializer;
  kernel_regularizer := None;
  bias_regularizer := None;
  activity_regularizer := None;
  split := 2;
  seed := None
|}.

(** [Conv2D(..., dilation_rate=2)], everything else at its default. *)
Definition dilated_kwargs : Conv2D_kwargs := {|
  strides := PSeq [1; 1];
  padding := "same";
  data_format := "channels_last";
  dilation_rate := PInt 2;
  activation := None;
  use_bias := true;
  kernel_initializer := None;
  bias_initializer := zeros_initializer;
  kernel_regularizer := None;
  bias_regularizer := None;
  activity_regularizer := None;
  split := 1;
  seed := None
|}.


(** ** Readings of the specification that the code is compared with *)






(** ** Further notions and sample calls *)

(** The [tf.nn.conv2d] calls behind an output: the convolution node itself,
    or the list a [tf.concat] joins. *)
Definition conv2d_calls (t : tensor) : list tensor :=
  match conv_core t with
  | Op_conv2d _ _ _ _ _ _ => [conv_core t]
  | Op_concat values _ => values
  | _ => []
  end.

(** The same keyword arguments with another [seed], [split] or
    [dilation_rate]. *)
Definition with_seed (a : Conv2D_kwargs) (sd : option Z) : Conv2D_kwargs :=
  {| strides := strides a; padding := padding a;
     data_format := data_format a; dilation_rate := dilation_rate a;
     activation := activation a; use_bias := use_bias a;
     kernel_initializer := kernel_initializer a;
     bias_initializer := bias_initializer a;
     kernel_regularizer := kernel_regularizer a;
     bias_regularizer := bias_regularizer a;
     activity_regularizer := activity_regularizer a;
     split := split a; seed := sd |}.

Definition T_with_seed (a : Conv2DTranspose_kwargs) (sd : option Z)
    : Conv2DTranspose_kwargs :=
  {| T_strides := T_strides a; T_padding := T_padding a;
     T_data_format := T_data_format a; T_activation := T_activation a;
     T_use_bias := T_use_bias a;
     T_kernel_initializer := T_kernel_initializer a;
     T_bias_initializer := T_bias_initializer a;
     T_kernel_regularizer := T_kernel_regularizer a;
     T_bias_regularizer := T_bias_regularizer a;
     T_activity_regularizer := T_activity_regularizer a;
     T_seed := sd |}.

Definition with_split (a : Conv2D_kwargs) (n : Z) : Conv2D_kwargs :=
  {| strides := strides a; padding := padding a;
     data_format := data_format a; dilation_rate := dilation_rate a;
     activation := activation a; use_bias := use_bias a;
     kernel_initializer := kernel_initializer a;
     bias_initializer := bias_initializer a;
     kernel_regularizer := kernel_regularizer a;
     bias_regularizer := bias_regularizer a;
     activity_regularizer := activity_regularizer a;
     split := n; seed := seed a |}.

Definition with_kernel_initializer (a : Conv2D_kwargs) (k : initializer)
    : Conv2D_kwargs :=
  {| strides := strides a; padding := padding a;
     data_format := data_format a; dilation_rate := dilation_rate a;
     activation := activation a; use_bias := use_bias a;
     kernel_initializer := Some k;
     bias_initializer := bias_initializer a;
     kernel_regularizer := kernel_regularizer a;
     bias_regularizer := bias_regularizer a;
     activity_regularizer := activity_regularizer a;
     split := split a; seed := seed a |}.

(** The reference helpers over a framework whose [tf.nn.conv2d] raises [e]
    on every call. *)
Definition raising_env (v : version) (in_shape : option (list (option Z)))
    (e : exn) : Env := {|
  get_tf_version_tuple := v;
  get_data_format := ref_get_data_format;
  shape2d := ref_shape2d;
  shape4d := ref_shape4d;
  get_shape := fun _ => in_shape;
  conv2d_raises := fun _ _ _ _ _ _ => Some e
|}.

(** What a result holds under an attribute of its [variables]. *)
Definition held (r : layer_result) (attr : string) : option tensor :=
  default None (variables r !! attr).

(** Lines 150-152 and 264-266 on a convolution node. *)
Definition add_bias (b : option tensor) (conv : tensor) (df : string)
    : tensor :=
  match b with
  | Some b => Op_bias_add conv b df
  | None => conv
  end.

Definition activate (f : option activation_fn) (x : tensor) : tensor :=
  match f with
  | Some f => Op_activation f x
  | None => x
  end.

(** * Properties *)

(** ** The monad, step by step *)

Section MonadFacts.
Context {A B : Type}.
Implicit Types (m : M A) (f : A → M B) (s : store).

Lemma bind_Ok m f s a s1 : m s = (Ok a, s1) → (m ≫= f) s = f a s1.
Proof. unfold mbind, M_bind. by intros ->. Qed.

Lemma bind_Raise m f s e s1 :
  m s = (Raise e, s1) → (m ≫= f) s = (Raise e, s1).
Proof. unfold mbind, M_bind. by intros ->. Qed.

Lemma bind_Ok_inv m f s b s' :
  (m ≫= f) s = (Ok b, s') → ∃ a s1, m s = (Ok a, s1) ∧ f a s1 = (Ok b, s').
Proof.
  unfold mbind, M_bind. destruct (m s) as [[a|e] s1]; [eauto | discriminate].
Qed.

Lemma lift_Ok_inv (o : outcome A) s a s' :
  lift o s = (Ok a, s') → o = Ok a ∧ s' = s.
Proof. unfold lift. by intros [= -> ->]. Qed.

Lemma mret_Ok_inv (x : A) s a s' :
  @mret M _ A x s = (Ok a, s') → a = x ∧ s' = s.
Proof. unfold mret, M_ret. by intros [= -> ->]. Qed.

Lemma raise_Ok_inv e s (a : A) s' : raise e s = (Ok a, s') → False.
Proof. unfold raise. discriminate. Qed.
End MonadFacts.

Lemma assert_Ok_inv c s u s' : assert c s = (Ok u, s') → c = true ∧ s' = s.
Proof. destruct c; unfold assert; [by intros [= _ ->] | discriminate]. Qed.

(** ** Framework calls and the store *)

Lemma pure_mret {A} (x : A) : pure_M (mret x : M A).
Proof. done. Qed.

Lemma pure_raise {A} e : pure_M (@raise A e).
Proof. done. Qed.

Lemma pure_lift {A} (o : outcome A) : pure_M (lift o).
Proof. done. Qed.

Lemma pure_bind {A B} (m : M A) (f : A → M B) :
  pure_M m → (∀ a, pure_M (f a)) → pure_M (m ≫= f).
Proof.
  intros Hm Hf s. unfold mbind, M_bind. specialize (Hm s).
  destruct (m s) as [[a|e] s1]; simpl in *; subst; [apply Hf | done].
Qed.

Lemma pure_tf_nn_conv2d `{Env} input filter strides padding data_format dil :
  pure_M (tf_nn_conv2d input filter strides padding data_format dil).
Proof. unfold tf_nn_conv2d. destruct (conv2d_raises _ _ _ _ _ _); done. Qed.

Lemma pure_mapM {A B} (f : A → M B) (l : list A) :
  (∀ a, pure_M (f a)) → pure_M (mapM f l).
Proof.
  intros Hf. induction l as [|x l IH]; simpl; [done|].
  apply pure_bind; [apply Hf|]. intros y.
  apply pure_bind; [apply IH|]. intros k. apply pure_mret.
Qed.

Section Conv2dCalls.
Context `{Env}.
Variables (stride : list Z) (pad df : string) (dil : option (list Z)).

Abbreviation call := (λ ik : tensor * tensor,
                    tf_nn_conv2d ik.1 ik.2 stride pad df dil).
Abbreviation node := (conv2d_node stride pad df dil).

Lemma tf_nn_conv2d_Ok_inv input filter s c s' :
  tf_nn_conv2d input filter stride pad df dil s = (Ok c, s') →
  c = Op_conv2d input filter stride pad df dil ∧ s' = s
  ∧ conv2d_raises input filter stride pad df dil = None.
Proof.
  unfold tf_nn_conv2d. destruct (conv2d_raises _ _ _ _ _ _); [done|].
  by intros [= <- <-].
Qed.

(** The list comprehension of the loop-based implementation: when it
    completes, it has made one call per pair, in order. *)
Lemma mapM_conv2d_Ok_inv (l : list (tensor * tensor)) s out s' :
  mapM call l s = (Ok out, s') → out = node <$> l ∧ s' = s.
Proof.
  revert s out s'. induction l as [|ik l IH]; intros s out s'; simpl.
  - by intros [= <- <-].
  - intros Hrun. apply bind_Ok_inv in Hrun as (c & s1 & Hc & Hrun).
    apply bind_Ok_inv in Hrun as (k & s2 & Hk & Hrun).
    apply mret_Ok_inv in Hrun as [-> ->].
    apply tf_nn_conv2d_Ok_inv in Hc as (-> & -> & _).
    apply IH in Hk as [-> ->]. done.
Qed.

(** And it completes when the framework accepts each of the calls. *)
Lemma mapM_conv2d_Ok (l : list (tensor * tensor)) s :
  Forall (λ ik, conv2d_raises ik.1 ik.2 stride pad df dil = None) l →
  mapM call l s = (Ok (node <$> l), s).
Proof.
  induction 1 as [|ik l Hik _ IH]; simpl; [done|].
  unfold mbind, M_bind, tf_nn_conv2d at 1.
  rewrite Hik. simpl. unfold mbind, M_bind in IH. by rewrite IH.
Qed.
End Conv2dCalls.

Lemma length_tf_split value num axis :
  length (tf_split value num axis) = Z.to_nat num.
Proof. unfold tf_split. by rewrite length_map, length_seq. Qed.

Lemma bind_lift_Ok {A B} (x : A) (f : A → M B) : lift (Ok x) ≫= f = f x.
Proof. done. Qed.

Lemma bind_mret {A B} (x : A) (f : A → M B) : mret x ≫= f = f x.
Proof. done. Qed.

Lemma bind_assert_true {B} (f : unit → M B) : assert true ≫= f = f tt.
Proof. done. Qed.

Lemma bind_tf_get_variable {B} name shape initializer (f : tensor → M B) s :
  (tf_get_variable name shape initializer ≫= f) s
  = let v := {| var_name := name; var_shape := Some (ExplicitShape shape);
                var_dtype := None; var_initializer := Some initializer;
                var_regularizer := None; var_trainable := true |} in
    f (Op_variable v) (s ++ [v]).
Proof. done. Qed.

(** Forward evaluation of a run, one successful step at a time. *)
Ltac mstep :=
  repeat first
    [ rewrite bind_lift_Ok | rewrite bind_mret | rewrite bind_assert_true
    | progress cbv beta ].

(** ** Lines 132-148: the convolution of the group-conv implementation *)

Section GroupConvStep.
Context `{Env}.
Variables (inputs W : tensor) (stride : list Z) (padding df : string)
  (dilations : option (list Z)) (groups channel_axis : Z).

Abbreviation direct :=
  (Op_conv2d inputs W stride (upper padding) df dilations).
Abbreviation looped :=
  (loop_conv inputs W groups channel_axis stride (upper padding) df dilations).

(** No variable is created while convolving. *)
Lemma pure_group_conv :
  pure_M (group_conv inputs W stride padding df dilations groups channel_axis).
Proof.
  unfold group_conv. destruct (groups =? 1); [apply pure_tf_nn_conv2d|].
  apply pure_bind.
  - destruct (ver_geb _ _); [|apply pure_mret].
    intros s. pose proof (pure_tf_nn_conv2d inputs W stride (upper padding)
                            df dilations s) as Hp.
    destruct (tf_nn_conv2d _ _ _ _ _ _ s) as [[c|[]] s1]; simpl in *; done.
  - intros [c|]; [apply pure_mret|]. cbv zeta.
    apply pure_bind; [|intros; apply pure_mret].
    apply pure_mapM. intros ik. apply pure_tf_nn_conv2d.
Qed.

(** Without grouping, one direct call. *)
Lemma group_conv_single s :
  groups = 1 →
  group_conv inputs W stride padding df dilations groups channel_axis s
  = tf_nn_conv2d inputs W stride (upper padding) df dilations s.
Proof. intros ->. done. Qed.

(** Below version (1,13) the direct grouped call is not attempted: the
    inputs and the kernel are split, every group is convolved with its own
    part of the kernel, and the outputs are concatenated. *)
Lemma group_conv_loop s :
  groups ≠ 1 →
  ver_geb get_tf_version_tuple (1, 13)%nat = false →
  Forall (λ ik : tensor * tensor,
            conv2d_raises ik.1 ik.2 stride (upper padding) df dilations = None)
         (zip (tf_split inputs groups channel_axis) (tf_split W groups 3)) →
  group_conv inputs W stride padding df dilations groups channel_axis s
  = (Ok looped, s).
Proof.
  intros Hg Hv Hok. unfold group_conv.
  rewrite (proj2 (Z.eqb_neq _ _) Hg), Hv, bind_mret. cbv zeta.
  erewrite bind_Ok by (by apply mapM_conv2d_Ok). done.
Qed.

(** From version (1,13) on the direct grouped call is attempted, and used
    when the framework accepts it. *)
Lemma group_conv_direct s :
  groups ≠ 1 →
  ver_geb get_tf_version_tuple (1, 13)%nat = true →
  conv2d_raises inputs W stride (upper padding) df dilations = None →
  group_conv inputs W stride padding df dilations groups channel_axis s
  = (Ok direct, s).
Proof.
  intros Hg Hv Hok. unfold group_conv.
  rewrite (proj2 (Z.eqb_neq _ _) Hg), Hv.
  unfold mbind, M_bind, tf_nn_conv2d. by rewrite Hok.
Qed.

(** When the framework rejects the direct grouped call with [ValueError],
    the handler runs into the unbound [log_once]: the call ends in
    [NameError], and the loop-based implementation is not reached. *)
Lemma group_conv_ValueError s :
  groups ≠ 1 →
  ver_geb get_tf_version_tuple (1, 13)%nat = true →
  conv2d_raises inputs W stride (upper padding) df dilations
  = Some ValueError →
  group_conv inputs W stride padding df dilations groups channel_axis s
  = (Raise NameError, s).
Proof.
  intros Hg Hv Hraise. unfold group_conv.
  rewrite (proj2 (Z.eqb_neq _ _) Hg), Hv.
  unfold mbind, M_bind, tf_nn_conv2d. by rewrite Hraise.
Qed.

(** What a completed convolution step has built. *)
Lemma group_conv_Ok_inv s conv s' :
  group_conv inputs W stride padding df dilations groups channel_axis s
  = (Ok conv, s') →
  s' = s
  ∧ (if groups =? 1 then conv = direct
     else if ver_geb get_tf_version_tuple (1, 13)%nat then conv = direct
     else conv = looped).
Proof.
  unfold group_conv. destruct (groups =? 1).
  - intros Hrun. by apply tf_nn_conv2d_Ok_inv in Hrun as (-> & -> & _).
  - intros Hrun. apply bind_Ok_inv in Hrun as (c & s1 & Hc & Hrun).
    destruct (ver_geb _ _).
    + destruct (tf_nn_conv2d inputs W stride (upper padding) df dilations s)
        as [[c0|e] s0] eqn:Hdirect.
      * injection Hc as <- <-.
        apply tf_nn_conv2d_Ok_inv in Hdirect as (-> & -> & _).
        by apply mret_Ok_inv in Hrun as [-> ->].
      * destruct e; discriminate.
    + apply mret_Ok_inv in Hc as [-> ->]. cbv zeta in Hrun.
      apply bind_Ok_inv in Hrun as (outs & s2 & Houts & Hrun).
      apply mapM_conv2d_Ok_inv in Houts as [-> ->].
      by apply mret_Ok_inv in Hrun as [-> ->].
Qed.
End GroupConvStep.


(** ** The framework-layer paths *)

Lemma rename_kernel_bias :
  rename_get_variable {[ "kernel" := "W"; "bias" := "b" ]} "kernel" = "W"
  ∧ rename_get_variable {[ "kernel" := "W"; "bias" := "b" ]} "bias" = "b".
Proof. split; vm_compute; reflexivity. Qed.

Lemma tf_layers_apply_renamed kind cfg inputs s :
  tf_layers_apply kind
    (rename_get_variable {[ "kernel" := "W"; "bias" := "b" ]}) cfg inputs s
  = (Ok {| layer_output :=
             Op_layer kind cfg inputs (Op_variable (layer_W_record cfg))
               (if cfg_use_bias cfg
                then Some (Op_variable (layer_b_record cfg)) else None);
           layer_kernel := Op_variable (layer_W_record cfg);
           layer_bias :=
             if cfg_use_bias cfg
             then Some (Op_variable (layer_b_record cfg)) else None |},
     s ++ created (cfg_use_bias cfg) (layer_W_record cfg) (layer_b_record cfg)).
Proof.
  destruct rename_kernel_bias as [HW Hb].
  unfold tf_layers_apply, mbind, M_bind, true_getter. rewrite HW, Hb.
  unfold created, layer_W_record, layer_b_record.
  destruct (cfg_use_bias cfg); simpl.
  - by rewrite <- app_assoc.
  - done.
Qed.

(** With [split == 1] and no dilation, [Conv2D] is the framework layer under
    the renaming, at every version. *)
Lemma Conv2D_fast `{Env} inputs filters kernel_size a dil s :
  shape2d (dilation_rate a) = Ok dil →
  fast_path a dil = true →
  let cfg := Conv2D_cfg filters kernel_size a dil in
  Conv2D inputs filters kernel_size a s
  = (Ok (wrapped_result LConv2D cfg inputs),
     s ++ created (use_bias a) (layer_W_record cfg) (layer_b_record cfg)).
Proof.
  intros Hdil Hfast cfg. unfold Conv2D, fast_path in *.
  rewrite Hdil; mstep. rewrite Hfast. fold (Conv2D_cfg filters kernel_size a dil).
  fold cfg. erewrite bind_Ok by apply tf_layers_apply_renamed.
  unfold wrapped_result. simpl. by destruct (use_bias a).
Qed.

(** Up to version (1,12), [Conv2DTranspose] is the framework layer under the
    renaming. *)
Lemma Conv2DTranspose_old `{Env} inputs filters kernel_size a s :
  ver_leb get_tf_version_tuple (1, 12)%nat = true →
  let cfg := Conv2DTranspose_cfg filters kernel_size a in
  Conv2DTranspose inputs filters kernel_size a s
  = (Ok (wrapped_result LConv2DTranspose cfg inputs),
     s ++ created (T_use_bias a) (layer_W_record cfg) (layer_b_record cfg)).
Proof.
  intros Hver cfg. unfold Conv2DTranspose. rewrite Hver.
  fold (Conv2DTranspose_cfg filters kernel_size a). fold cfg.
  erewrite bind_Ok by apply tf_layers_apply_renamed.
  unfold wrapped_result. simpl. by destruct (T_use_bias a).
Qed.

(** Above version (1,12), [Conv2DTranspose] does not return: past the
    assertion and the shape computations it evaluates
    [float32_variable_storage_getter(dtype=tf.float16)], a call without the
    two required arguments. *)
Lemma Conv2DTranspose_new_never_returns `{Env} inputs filters kernel_size a s :
  ver_leb get_tf_version_tuple (1, 12)%nat = false →
  ∃ e, Conv2DTranspose inputs filters kernel_size a s = (Raise e, s).
Proof.
  intros Hver. unfold Conv2DTranspose. rewrite Hver.
  unfold mbind, M_bind, lift, assert, raise, call_float32_variable_storage_getter.
  repeat (simpl;
          match goal with
          | |- context [match ?x with _ => _ end] =>
              lazymatch x with
              | context [match _ with _ => _ end] => fail
              | _ => destruct x eqn:?
              end
          end); simpl; eauto.
Qed.

(** ** The group-conv implementation of [Conv2D] *)

Section GroupConvBody.
Context `{Env}.
Variables (inputs : tensor) (filters : Z) (kernel_size : pyshape)
  (a : Conv2D_kwargs) (s : store).
Variables (dil : list Z) (df : string) (sh : list (option Z)) (c : Z)
  (kernel_shape stride : list Z) (dilations : option (list Z)).
Hypothesis Hready :
  group_conv_ready inputs filters kernel_size a dil df sh c kernel_shape
    stride dilations.

Abbreviation W := (W_record a kernel_shape c filters).
Abbreviation b := (b_record a filters).
Abbreviation channel_axis := (if String.eqb df "NHWC" then 3 else 1).

(** [W] and, with [use_bias], [b] are created, then the convolution is run
    and wrapped. *)
Lemma Conv2D_ready_run :
  Conv2D inputs filters kernel_size a s
  = (conv ← group_conv inputs (Op_variable W) stride (padding a) df dilations
             (split a) channel_axis;
     mret (own_result a df conv W b))
      (s ++ created (use_bias a) W b).
Proof.
  destruct Hready as (Hdil & Hslow & Hdf & Hsh & Hidx & Hsplit & Hc & Hreg
                      & Hf & Hver & Hks & Hstride & Hdilations).
  unfold Conv2D, fast_path in *.
  rewrite Hdil; mstep. rewrite Hslow, Hdf; mstep.
  rewrite Hsh; simpl as_list; mstep. rewrite Hidx; mstep.
  unfold py_mod. rewrite (proj2 (Z.eqb_neq _ _) Hsplit); mstep.
  rewrite Hc, Hf; simpl (0 =? 0); mstep.
  destruct Hreg as (-> & -> & ->). rewrite !bool_decide_eq_true_2 by done.
  simpl andb; mstep.
  assert (list_Z_eqb dil [1; 1] || ver_geb get_tf_version_tuple (1, 5)%nat
          = true) as ->.
  { destruct Hver as [->| ->]; [done | apply orb_true_r]. }
  mstep. rewrite Hks, Hstride; mstep.
  assert ((if ver_geb get_tf_version_tuple (1, 5)%nat
           then lift (shape4d (PSeq dil) df) ≫= λ d : list Z, mret (Some d)
           else mret None) = (mret dilations : M _)) as ->.
  { revert Hdilations. unfold dilations_kwarg.
    destruct (ver_geb _ _).
    - destruct (shape4d (PSeq dil) df) as [d|e]; [|done]. by intros [= <-].
    - by intros [= <-]. }
  mstep. rewrite bind_tf_get_variable. cbv zeta. fold W.
  unfold own_result, created.
  destruct (use_bias a).
  - rewrite (bind_Ok _ _ _ (Some (Op_variable b)) ((s ++ [W]) ++ [b])) by done.
    by rewrite <- app_assoc.
  - by rewrite bind_mret.
Qed.

(** Whatever the convolution does afterwards, the store ends with exactly
    these variables added. *)
Lemma Conv2D_ready_store :
  (Conv2D inputs filters kernel_size a s).2 = s ++ created (use_bias a) W b.
Proof.
  rewrite Conv2D_ready_run.
  apply pure_bind; [apply pure_group_conv | intros; apply pure_mret].
Qed.

(** The loop-based grouped convolution: below version (1,13), when the
    framework accepts the per-group calls. *)
Lemma Conv2D_loop_fallback :
  split a ≠ 1 →
  ver_geb get_tf_version_tuple (1, 13)%nat = false →
  Forall (λ ik : tensor * tensor,
            conv2d_raises ik.1 ik.2 stride (upper (padding a)) df dilations
            = None)
         (zip (tf_split inputs (split a) channel_axis)
              (tf_split (Op_variable W) (split a) 3)) →
  Conv2D inputs filters kernel_size a s
  = (Ok (own_result a df
           (loop_conv inputs (Op_variable W) (split a) channel_axis stride
              (upper (padding a)) df dilations) W b),
     s ++ created (use_bias a) W b).
Proof.
  intros Hg Hv Hok. rewrite Conv2D_ready_run.
  erewrite bind_Ok by (by apply group_conv_loop). done.
Qed.

(** From version (1,13) on, a [ValueError] of the direct grouped call ends
    the call in [NameError]. *)
Lemma Conv2D_grouped_ValueError :
  split a ≠ 1 →
  ver_geb get_tf_version_tuple (1, 13)%nat = true →
  conv2d_raises inputs (Op_variable W) stride (upper (padding a)) df dilations
  = Some ValueError →
  Conv2D inputs filters kernel_size a s
  = (Raise NameError, s ++ created (use_bias a) W b).
Proof.
  intros Hg Hv Hraise. rewrite Conv2D_ready_run.
  erewrite bind_Raise by (by apply group_conv_ValueError). done.
Qed.
End GroupConvBody.

(** A call of [Conv2D] that returns without taking the framework-layer path
    has passed every check of lines 104-124. *)
Lemma Conv2D_slow_Ok_ready `{Env} inputs filters kernel_size a dil s r s' :
  shape2d (dilation_rate a) = Ok dil →
  fast_path a dil = false →
  Conv2D inputs filters kernel_size a s = (Ok r, s') →
  ∃ df sh c kernel_shape stride dilations,
    group_conv_ready inputs filters kernel_size a dil df sh c kernel_shape
      stride dilations.
Proof.
  intros Hdil Hslow Hrun. unfold Conv2D in Hrun. unfold fast_path in Hslow.
  rewrite Hdil in Hrun. rewrite bind_lift_Ok in Hrun. rewrite Hslow in Hrun.
  apply bind_Ok_inv in Hrun as (df & s1 & Hdf & Hrun).
  apply lift_Ok_inv in Hdf as [Hdf ->].
  apply bind_Ok_inv in Hrun as (sh & s1 & Hsh & Hrun).
  apply lift_Ok_inv in Hsh as [Hsh ->].
  apply bind_Ok_inv in Hrun as (ic & s1 & Hidx & Hrun).
  apply lift_Ok_inv in Hidx as [Hidx ->].
  destruct ic as [c|]; [|done].
  apply bind_Ok_inv in Hrun as (r1 & s1 & Hmod1 & Hrun).
  apply lift_Ok_inv in Hmod1 as [Hmod1 ->].
  apply bind_Ok_inv in Hrun as (? & s1 & Hc & Hrun).
  apply assert_Ok_inv in Hc as [Hc ->].
  apply bind_Ok_inv in Hrun as (? & s1 & Hreg & Hrun).
  apply assert_Ok_inv in Hreg as [Hreg ->].
  apply bind_Ok_inv in Hrun as (r2 & s1 & Hmod2 & Hrun).
  apply lift_Ok_inv in Hmod2 as [Hmod2 ->].
  apply bind_Ok_inv in Hrun as (? & s1 & Hf & Hrun).
  apply assert_Ok_inv in Hf as [Hf ->].
  apply bind_Ok_inv in Hrun as (? & s1 & Hver & Hrun).
  apply assert_Ok_inv in Hver as [Hver ->].
  apply bind_Ok_inv in Hrun as (kernel_shape & s1 & Hks & Hrun).
  apply lift_Ok_inv in Hks as [Hks ->].
  apply bind_Ok_inv in Hrun as (stride & s1 & Hstride & Hrun).
  apply lift_Ok_inv in Hstride as [Hstride ->].
  apply bind_Ok_inv in Hrun as (dilations & s1 & Hdilations & _).
  unfold py_mod in Hmod1, Hmod2.
  destruct (Z.eqb_spec (split a) 0) as [|Hsplit]; [done|].
  injection Hmod1 as <-. injection Hmod2 as <-.
  apply Z.eqb_eq in Hc, Hf.
  apply andb_true_iff in Hreg as [Hreg Hr3].
  apply andb_true_iff in Hreg as [Hr1 Hr2].
  apply bool_decide_eq_true_1 in Hr1, Hr2, Hr3.
  unfold as_list in Hsh.
  destruct (get_shape inputs) as [sh0|] eqn:Hshape; [|done].
  injection Hsh as ->.
  exists df, sh, c, kernel_shape, stride, dilations.
  unfold group_conv_ready, fast_path, dilations_kwarg.
  repeat split; try done.
  - apply orb_true_iff in Hver as [Hd|Hv]; [left | by right].
    by apply bool_decide_eq_true_1 in Hd.
  - destruct (ver_geb _ _).
    + apply bind_Ok_inv in Hdilations as (d & s2 & Hd & Hdilations).
      apply lift_Ok_inv in Hd as [-> ->].
      by apply mret_Ok_inv in Hdilations as [-> ->].
    + by apply mret_Ok_inv in Hdilations as [-> ->].
Qed.

(** ** The custom getter *)

(** C9. [float32_variable_storage_getter] asks the wrapped getter for storage
    at float32 when the variable is trainable and at the requested dtype when
    it is not, and returns the variable cast to the requested dtype exactly
    when it is trainable and the requested dtype is not float32; otherwise it
    returns what the getter stored, unchanged.  Over the framework's own
    getter this reads: the variable is recorded at the storage dtype, and the
    result is the cast of that variable or the variable itself. *)
Theorem float32_variable_storage_getter_spec :
  (∀ (getter : getter_t) name shape dtype initializer regularizer trainable s,
     float32_variable_storage_getter getter name shape dtype initializer
       regularizer trainable s
     = match getter name shape (if trainable then Some float32 else dtype)
               initializer regularizer trainable s with
       | (Ok variable, s') =>
           (Ok (if decide (trainable = true ∧ dtype ≠ Some float32)
                then Op_cast variable dtype else variable), s')
       | (Raise e, s') => (Raise e, s')
       end)
  ∧ (∀ name shape dtype initializer regularizer (trainable : bool) s,
       let v := {| var_name := name; var_shape := shape;
                   var_dtype := if trainable then Some float32 else dtype;
                   var_initializer := initializer;
                   var_regularizer := regularizer;
                   var_trainable := trainable |} in
       float32_variable_storage_getter true_getter name shape dtype
         initializer regularizer trainable s
       = (Ok (if decide (trainable = true ∧ dtype ≠ Some float32)
              then Op_cast (Op_variable v) dtype else Op_variable v),
          s ++ [v])).
Proof.
  assert (Hc : ∀ (trainable : bool) (dtype : option dtype) (x y : tensor),
             (if trainable && bool_decide (dtype ≠ Some float32) then x else y)
             = (if decide (trainable = true ∧ dtype ≠ Some float32)
                then x else y)).
  { intros [] dt x y; simpl; repeat case_bool_decide; repeat case_decide;
      naive_solver. }
  split.
  - intros getter name shape dt ini reg tr s.
    unfold float32_variable_storage_getter, mbind, M_bind.
    destruct (getter _ _ _ _ _ _ s) as [[variable|e] s1]; [|done].
    rewrite <- Hc. by destruct (tr && _).
  - intros name shape dt ini reg tr s v.
    unfold float32_variable_storage_getter, mbind, M_bind, true_getter.
    fold v. rewrite <- Hc. by destruct (tr && _).
Qed.

(** ** The public names *)

(** C7. The module lists three public names, [Conv2D], [Deconv2D] and
    [Conv2DTranspose], bound to two distinct functions: [Deconv2D] is
    [Conv2DTranspose], so both give the same result on every input and from
    every store, whereas [Conv2D] and [Conv2DTranspose] differ already on
    their default arguments. *)
Theorem Deconv2D_same_as_Conv2DTranspose :
  (∀ (E : Env) inputs filters kernel_size a s,
     Deconv2D inputs filters kernel_size a s
     = Conv2DTranspose inputs filters kernel_size a s)
  ∧ all__ = ["Conv2D"; "Deconv2D"; "Conv2DTranspose"]
  ∧ NoDup all__
  ∧ (∃ (E : Env) inputs filters kernel_size s,
       (Conv2D inputs filters kernel_size Conv2D_defaults s).1
       ≠ (Conv2DTranspose inputs filters kernel_size
            Conv2DTranspose_defaults s).1).
Proof.
  split; [done|]. split; [done|]. split.
  - unfold all__. repeat constructor; set_solver.
  - exists (ref_env (1, 12)%nat (Some [None; Some 8; Some 8; Some 4]) true),
      (Input 0), 6, (PInt 3), [].
    vm_compute. discriminate.
Qed.

(** ** Assertions *)

(** A grouped or dilated call is on the group-conv path. *)
Lemma grouped_or_dilated_not_fast a dil :
  1 < split a ∨ dil ≠ [1; 1] → fast_path a dil = false.
Proof.
  unfold fast_path, list_Z_eqb. intros [Hs|Hd].
  - by rewrite (proj2 (Z.eqb_neq (split a) 1)) by lia.
  - rewrite bool_decide_eq_false_2 by done. apply andb_false_r.
Qed.








(** ** The weight of the group-conv implementation *)

Lemma truediv_exact (c k : Z) :
  k ≠ 0 → c mod k = 0 →
  ∃ q, dim_value (truediv c k) = Some q ∧ (q == inject_Z (c / k))%Q.
Proof.
  intros Hk Hmod. eexists. split; [reflexivity|].
  assert (Hc : c = c / k * k).
  { rewrite Z.mul_comm. apply Z.div_exact; done. }
  rewrite Hc at 1. rewrite inject_Z_mult.
  apply Qdiv_mult_l. intros Hz.
  apply Hk. apply (proj1 (inject_Z_injective k 0)). exact Hz.
Qed.

(** C10. On the group-conv path of [Conv2D], once the checks of lines
    104-124 have passed (among them that [split] divides the input channel
    count [c]), the first variable the call adds to the store is [W], with
    shape [[kernel_h, kernel_w, c / split, filters]]: the third entry is the
    float [c / split], whose value is the integer quotient of [c] by
    [split], and that quotient is exact. *)
Theorem W_shape_has_exact_channel_quotient :
  ∀ (E : Env) inputs filters kernel_size a s dil df sh c kernel_h kernel_w
    stride dilations,
    group_conv_ready inputs filters kernel_size a dil df sh c
      [kernel_h; kernel_w] stride dilations →
    let W := W_record a [kernel_h; kernel_w] c filters in
    (∃ rest, (Conv2D inputs filters kernel_size a s).2 = s ++ W :: rest)
    ∧ var_name W = "W"
    ∧ var_shape W
      = Some (ExplicitShape [dim_int kernel_h; dim_int kernel_w;
                             truediv c (split a); dim_int filters])
    ∧ (∃ q, dim_value (truediv c (split a)) = Some q
            ∧ (q == inject_Z (c / split a))%Q)
    ∧ split a * (c / split a) = c.
Proof.
  intros E inputs filters kernel_size a s dil df sh c kernel_h kernel_w stride
    dilations Hready W.
  pose proof (Conv2D_ready_store _ _ _ _ s _ _ _ _ _ _ _ Hready) as Hstore.
  destruct Hready as (_ & _ & _ & _ & _ & Hsplit & Hc & _).
  split; [by eexists|]. split; [done|]. split; [done|].
  split; [by apply truediv_exact|].
  symmetry. by apply Z.div_exact.
Qed.

Lemma W_shape_has_exact_channel_quotient_witness :
  let E := ref_env (1, 4)%nat sample_shape false in
  let W := W_record grouped_kwargs [3; 3] 4 6 in
  (∃ rest, (Conv2D (Input 0) 6 (PInt 3) grouped_kwargs []).2 = [] ++ W :: rest)
  ∧ var_name W = "W"
  ∧ var_shape W
    = Some (ExplicitShape [dim_int 3; dim_int 3; truediv 4 2; dim_int 6])
  ∧ (∃ q, dim_value (truediv 4 2) = Some q ∧ (q == inject_Z (4 / 2))%Q)
  ∧ 2 * (4 / 2) = 4.
Proof.
  intros E W.
  apply (W_shape_has_exact_channel_quotient E (Input 0) 6 (PInt 3)
           grouped_kwargs [] [1; 1] "NHWC" [None; Some 8; Some 8; Some 4] 4
           3 3 [1; 1; 1; 1] None).
  unfold group_conv_ready. repeat split; try reflexivity.
  - discriminate.
  - by left.
Defined.

(** ** Where the code leaves its documented behaviour *)

(** C2, at a failing input.  Version (1,13), [split = 2], a framework
    without grouped-convolution support, which rejects the direct call with
    [ValueError]: the call creates [W] and [b] and ends in [NameError]
    instead of falling back to the loop. *)
Theorem Conv2D_grouped_ValueError_ends_in_NameError :
  let E := ref_env (1, 13)%nat sample_shape false in
  conv2d_raises (Input 0) (Op_variable (W_record grouped_kwargs [3; 3] 4 6))
    [1; 1; 1; 1] "SAME" "NHWC" (Some [1; 1; 1; 1])
  = Some ValueError
  ∧ Conv2D (Input 0) 6 (PInt 3) grouped_kwargs []
    = (Raise NameError,
       [W_record grouped_kwargs [3; 3] 4 6; b_record grouped_kwargs 6]).
Proof. split; vm_compute; reflexivity. Qed.

(** C4, at a failing input.  Version (1,13) and the default arguments:
    [Conv2DTranspose] ends in [TypeError] with no variable created. *)
Theorem Conv2DTranspose_new_path_ends_in_TypeError :
  let E := ref_env (1, 13)%nat sample_shape true in
  Conv2DTranspose (Input 0) 6 (PInt 3) Conv2DTranspose_defaults []
  = (Raise TypeError, []).
Proof. vm_compute. reflexivity. Qed.

(** ** Calls that return *)

Lemma Conv2D_Ok_cases `{Env} inputs filters kernel_size a s r s' :
  Conv2D inputs filters kernel_size a s = (Ok r, s') →
  ∃ dil,
    shape2d (dilation_rate a) = Ok dil
    ∧ if fast_path a dil then
        let cfg := Conv2D_cfg filters kernel_size a dil in
        r = wrapped_result LConv2D cfg inputs
        ∧ s' = s ++ created (use_bias a) (layer_W_record cfg)
                      (layer_b_record cfg)
      else
        ∃ df sh c kernel_shape stride dilations conv,
          let W := W_record a kernel_shape c filters in
          let channel_axis := if String.eqb df "NHWC" then 3 else 1 in
          group_conv_ready inputs filters kernel_size a dil df sh c
            kernel_shape stride dilations
          ∧ r = own_result a df conv W (b_record a filters)
          ∧ s' = s ++ created (use_bias a) W (b_record a filters)
          ∧ (if split a =? 1
             then conv = Op_conv2d inputs (Op_variable W) stride
                           (upper (padding a)) df dilations
             else if ver_geb get_tf_version_tuple (1, 13)%nat
             then conv = Op_conv2d inputs (Op_variable W) stride
                           (upper (padding a)) df dilations
             else conv = loop_conv inputs (Op_variable W) (split a)
                           channel_axis stride (upper (padding a)) df
                           dilations).
Proof.
  intros Hrun.
  assert (∃ dil, shape2d (dilation_rate a) = Ok dil) as [dil Hdil].
  { unfold Conv2D in Hrun. apply bind_Ok_inv in Hrun as (dil & ? & Hd & _).
    apply lift_Ok_inv in Hd as [Hd _]. eauto. }
  exists dil. split; [done|].
  destruct (fast_path a dil) eqn:Hpath.
  - rewrite (Conv2D_fast _ _ _ _ _ _ Hdil Hpath) in Hrun.
    by injection Hrun as <- <-.
  - destruct (Conv2D_slow_Ok_ready _ _ _ _ _ _ _ _ Hdil Hpath Hrun)
      as (df & sh & c & kernel_shape & stride & dilations & Hready).
    rewrite (Conv2D_ready_run _ _ _ _ _ _ _ _ _ _ _ _ Hready) in Hrun.
    apply bind_Ok_inv in Hrun as (conv & s1 & Hconv & Hrun).
    apply mret_Ok_inv in Hrun as [-> ->].
    apply group_conv_Ok_inv in Hconv as [-> Hconv].
    exists df, sh, c, kernel_shape, stride, dilations, conv. by cbv zeta.
Qed.

Lemma Conv2DTranspose_Ok_cases `{Env} inputs filters kernel_size a s r s' :
  Conv2DTranspose inputs filters kernel_size a s = (Ok r, s') →
  let cfg := Conv2DTranspose_cfg filters kernel_size a in
  ver_leb get_tf_version_tuple (1, 12)%nat = true
  ∧ r = wrapped_result LConv2DTranspose cfg inputs
  ∧ s' = s ++ created (T_use_bias a) (layer_W_record cfg) (layer_b_record cfg).
Proof.
  intros Hrun cfg.
  destruct (ver_leb get_tf_version_tuple (1, 12)%nat) eqn:Hver.
  - rewrite (Conv2DTranspose_old _ _ _ _ _ Hver) in Hrun.
    by injection Hrun as <- <-.
  - destruct (Conv2DTranspose_new_never_returns inputs filters kernel_size a s
                Hver) as [e He].
    rewrite He in Hrun. discriminate.
Qed.

(** ** Naming *)

Lemma naming_wrapped_result kind cfg inputs s :
  naming_convention (cfg_use_bias cfg) (wrapped_result kind cfg inputs) s
    (s ++ created (cfg_use_bias cfg) (layer_W_record cfg) (layer_b_record cfg)).
Proof.
  exists (layer_W_record cfg), (layer_b_record cfg).
  unfold wrapped_result, holds_variable. simpl.
  destruct (cfg_use_bias cfg); simpl; repeat split;
    first [ done | by intros [? [=]] | by eexists
          | rewrite ?dom_insert_L, dom_singleton_L; set_solver ].
Qed.

Lemma naming_own_result `{Env} a df conv kernel_shape c filters s :
  naming_convention (use_bias a)
    (own_result a df conv (W_record a kernel_shape c filters)
       (b_record a filters)) s
    (s ++ created (use_bias a) (W_record a kernel_shape c filters)
            (b_record a filters)).
Proof.
  exists (W_record a kernel_shape c filters), (b_record a filters).
  unfold own_result, holds_variable. simpl.
  destruct (use_bias a); simpl; repeat split;
    first [ done | by intros [? [=]] | by eexists
          | rewrite ?dom_insert_L, dom_singleton_L; set_solver ].
Qed.

(** C5. Whenever [Conv2D] or [Conv2DTranspose] returns, on whichever path,
    the result's holder has the weight under [W], a variable created under
    the name [W]; it has the bias under [b], a variable created under the
    name [b], if and only if [use_bias]; it holds nothing else; and the
    variables held are exactly those the call has added to the store. *)
Theorem variables_follow_naming_convention :
  (∀ (E : Env) inputs filters kernel_size a s r s',
     Conv2D inputs filters kernel_size a s = (Ok r, s') →
     naming_convention (use_bias a) r s s')
  ∧ (∀ (E : Env) inputs filters kernel_size a s r s',
       Conv2DTranspose inputs filters kernel_size a s = (Ok r, s') →
       naming_convention (T_use_bias a) r s s').
Proof.
  split.
  - intros E inputs filters kernel_size a s r s' Hrun.
    apply Conv2D_Ok_cases in Hrun as (dil & _ & Hcases).
    destruct (fast_path a dil).
    + destruct Hcases as [-> ->].
      apply (naming_wrapped_result LConv2D (Conv2D_cfg filters kernel_size a dil)).
    + destruct Hcases as (df & ? & c & kernel_shape & ? & ? & conv
                          & _ & -> & -> & _).
      apply naming_own_result.
  - intros E inputs filters kernel_size a s r s' Hrun.
    apply Conv2DTranspose_Ok_cases in Hrun as (_ & -> & ->).
    apply (naming_wrapped_result LConv2DTranspose
             (Conv2DTranspose_cfg filters kernel_size a)).
Qed.

Lemma variables_follow_naming_convention_witness :
  (∃ r s', @Conv2D (ref_env (1, 13)%nat sample_shape true) (Input 0) 6
             (PInt 3) Conv2D_defaults [] = (Ok r, s')
           ∧ naming_convention true r [] s')
  ∧ (∃ r s', @Conv2D (ref_env (1, 4)%nat sample_shape false) (Input 0) 6
               (PInt 3) grouped_kwargs [] = (Ok r, s')
             ∧ naming_convention true r [] s')
  ∧ (∃ r s', @Conv2DTranspose (ref_env (1, 12)%nat sample_shape true)
               (Input 0) 6 (PInt 3) Conv2DTranspose_defaults [] = (Ok r, s')
             ∧ naming_convention true r [] s').
Proof.
  split; [|split].
  - eexists _, _. split; [vm_compute; reflexivity|].
    apply (proj1 variables_follow_naming_convention
             (ref_env (1, 13)%nat sample_shape true) (Input 0) 6 (PInt 3)
             Conv2D_defaults).
    vm_compute. reflexivity.
  - eexists _, _. split; [vm_compute; reflexivity|].
    apply (proj1 variables_follow_naming_convention
             (ref_env (1, 4)%nat sample_shape false) (Input 0) 6 (PInt 3)
             grouped_kwargs).
    vm_compute. reflexivity.
  - eexists _, _. split; [vm_compute; reflexivity|].
    apply (proj2 variables_follow_naming_convention
             (ref_env (1, 12)%nat sample_shape true) (Input 0) 6 (PInt 3)
             Conv2DTranspose_defaults).
    vm_compute. reflexivity.
Defined.

(** ** Defaults *)

(** C6. The defaults of both signatures are padding ['same'] and the zeros
    initializer for the bias.  With [kernel_initializer] left at [None], the
    initializer used is variance scaling with scale 2.0: the contrib variant
    up to version (1,12), [tf.keras.initializers.VarianceScaling] with the
    ['untruncated_normal'] distribution above; it is the initializer of the
    variable held as [W] in every result, and the bias initializer of the
    call is the one of the variable held as [b]. *)
Theorem default_initializers_and_padding :
  padding Conv2D_defaults = "same"
  ∧ T_padding Conv2DTranspose_defaults = "same"
  ∧ bias_initializer Conv2D_defaults = zeros_initializer
  ∧ T_bias_initializer Conv2DTranspose_defaults = zeros_initializer
  ∧ (∀ (E : Env) seed,
       resolve_kernel_initializer None seed
       = if ver_leb get_tf_version_tuple (1, 12)%nat
         then variance_scaling_initializer 2 seed
         else VarianceScaling 2 "untruncated_normal" seed)
  ∧ (∀ (E : Env) inputs filters kernel_size a s r s',
       kernel_initializer a = None →
       Conv2D inputs filters kernel_size a s = (Ok r, s') →
       ∃ W b, holds_variable (variables r) "W" "W" W
              ∧ var_initializer W = Some (default_kernel_initializer (seed a))
              ∧ (use_bias a = true →
                 holds_variable (variables r) "b" "b" b
                 ∧ var_initializer b = Some (bias_initializer a)))
  ∧ (∀ (E : Env) inputs filters kernel_size a s r s',
       T_kernel_initializer a = None →
       Conv2DTranspose inputs filters kernel_size a s = (Ok r, s') →
       ∃ W b, holds_variable (variables r) "W" "W" W
              ∧ var_initializer W
                = Some (default_kernel_initializer (T_seed a))
              ∧ (T_use_bias a = true →
                 holds_variable (variables r) "b" "b" b
                 ∧ var_initializer b = Some (T_bias_initializer a))).
Proof.
  do 5 (split; [done|]). split.
  - intros E inputs filters kernel_size a s r s' Hnone Hrun.
    apply Conv2D_Ok_cases in Hrun as (dil & _ & Hcases).
    destruct (fast_path a dil).
    + destruct Hcases as [-> _].
      exists (layer_W_record (Conv2D_cfg filters kernel_size a dil)),
        (layer_b_record (Conv2D_cfg filters kernel_size a dil)).
      unfold wrapped_result, holds_variable. simpl.
      rewrite Hnone. destruct (use_bias a); repeat split; done.
    + destruct Hcases as (df & ? & c & kernel_shape & ? & ? & conv
                          & _ & -> & _).
      exists (W_record a kernel_shape c filters), (b_record a filters).
      unfold own_result, holds_variable. simpl.
      rewrite Hnone. destruct (use_bias a); repeat split; done.
  - intros E inputs filters kernel_size a s r s' Hnone Hrun.
    apply Conv2DTranspose_Ok_cases in Hrun as (_ & -> & _).
    exists (layer_W_record (Conv2DTranspose_cfg filters kernel_size a)),
      (layer_b_record (Conv2DTranspose_cfg filters kernel_size a)).
    unfold wrapped_result, holds_variable. simpl.
    rewrite Hnone. destruct (T_use_bias a); repeat split; done.
Qed.

Lemma default_initializers_and_padding_witness :
  (∃ r s' W b,
     @Conv2D (ref_env (1, 13)%nat sample_shape true) (Input 0) 6 (PInt 3)
       Conv2D_defaults [] = (Ok r, s')
     ∧ holds_variable (variables r) "W" "W" W
     ∧ var_initializer W = Some (VarianceScaling 2 "untruncated_normal" None)
     ∧ holds_variable (variables r) "b" "b" b
     ∧ var_initializer b = Some zeros_initializer)
  ∧ (∃ r s' W b,
       @Conv2DTranspose (ref_env (1, 12)%nat sample_shape true) (Input 0) 6
         (PInt 3) Conv2DTranspose_defaults [] = (Ok r, s')
       ∧ holds_variable (variables r) "W" "W" W
       ∧ var_initializer W = Some (variance_scaling_initializer 2 None)
       ∧ holds_variable (variables r) "b" "b" b
       ∧ var_initializer b = Some zeros_initializer).
Proof.
  split.
  - destruct (proj1 (proj2 (proj2 (proj2 (proj2 (proj2
                default_initializers_and_padding)))))
                (ref_env (1, 13)%nat sample_shape true) (Input 0) 6 (PInt 3)
                Conv2D_defaults [] _ _ eq_refl eq_refl)
      as (W & b & HW & HWi & Hb).
    destruct (Hb eq_refl) as [Hb1 Hb2].
    eexists _, _, W, b. split; [reflexivity|]. done.
  - destruct (proj2 (proj2 (proj2 (proj2 (proj2 (proj2
                default_initializers_and_padding)))))
                (ref_env (1, 12)%nat sample_shape true) (Input 0) 6 (PInt 3)
                Conv2DTranspose_defaults [] _ _ eq_refl eq_refl)
      as (W & b & HW & HWi & Hb).
    destruct (Hb eq_refl) as [Hb1 Hb2].
    eexists _, _, W, b. split; [reflexivity|]. done.
Defined.

(** ** Dispatch *)






(** * Further properties of the code *)

(** ** The direct grouped call of lines 136-142 *)

Lemma group_conv_direct_raises `{Env} inputs W stride padding df dilations
    groups channel_axis s e :
  groups ≠ 1 →
  ver_geb get_tf_version_tuple (1, 13)%nat = true →
  conv2d_raises inputs W stride (upper padding) df dilations = Some e →
  group_conv inputs W stride padding df dilations groups channel_axis s
  = (Raise match e with ValueError => NameError | _ => e end, s).
Proof.
  intros Hg Hv Hraise. unfold group_conv.
  rewrite (proj2 (Z.eqb_neq _ _) Hg), Hv.
  unfold mbind, M_bind, tf_nn_conv2d. rewrite Hraise. by destruct e.
Qed.

(** X2. From version (1,13) on, when the framework raises in the direct
    grouped [tf.nn.conv2d] call, the loop-based implementation is not run:
    an exception other than [ValueError] leaves the call as it is, a
    [ValueError] leaves it as [NameError]; in both cases [W] and [b] have
    been created and stay in the store. *)
Theorem grouped_direct_call_exception :
  ∀ (E : Env) inputs filters kernel_size a s dil df sh c kernel_shape stride
    dilations e,
    group_conv_ready inputs filters kernel_size a dil df sh c kernel_shape
      stride dilations →
    split a ≠ 1 →
    ver_geb get_tf_version_tuple (1, 13)%nat = true →
    let W := W_record a kernel_shape c filters in
    conv2d_raises inputs (Op_variable W) stride (upper (padding a)) df
      dilations = Some e →
    Conv2D inputs filters kernel_size a s
    = (Raise match e with ValueError => NameError | _ => e end,
       s ++ created (use_bias a) W (b_record a filters)).
Proof.
  intros E inputs filters kernel_size a s dil df sh c kernel_shape stride
    dilations e Hready Hg Hv W Hraise.
  rewrite (Conv2D_ready_run _ _ _ _ s _ _ _ _ _ _ _ Hready).
  erewrite bind_Raise by (by apply group_conv_direct_raises). done.
Qed.

Lemma grouped_direct_call_exception_witness :
  @Conv2D (raising_env (1, 13)%nat sample_shape TypeError) (Input 0) 6
    (PInt 3) grouped_kwargs []
  = (Raise TypeError,
     [] ++ created true
             (@W_record (raising_env (1, 13)%nat sample_shape TypeError)
                grouped_kwargs [3; 3] 4 6)
             (b_record grouped_kwargs 6)).
Proof.
  apply (grouped_direct_call_exception
           (raising_env (1, 13)%nat sample_shape TypeError) (Input 0) 6
           (PInt 3) grouped_kwargs [] [1; 1] "NHWC"
           [None; Some 8; Some 8; Some 4] 4 [3; 3] [1; 1; 1; 1]
           (Some [1; 1; 1; 1]) TypeError).
  - unfold group_conv_ready. repeat split; try reflexivity.
    + discriminate.
    + by left.
  - discriminate.
  - reflexivity.
  - reflexivity.
Defined.

(** ** The loop-based grouped convolution of lines 143-148 *)

Lemma lookup_tf_split value num axis (i : nat) :
  (i < Z.to_nat num)%nat →
  tf_split value num axis !! i = Some (Op_split_part value num axis i).
Proof.
  intros Hi. unfold tf_split.
  by rewrite list_lookup_fmap, lookup_seq_lt.
Qed.

Lemma conv_core_own_result a df conv W b :
  conv_core (ret (own_result a df conv W b)) = conv_core conv.
Proof.
  unfold own_result. simpl. by destruct (use_bias a), (activation a).
Qed.

(** X3. Below version (1,13), a grouped call that passes the checks, on a
    framework that accepts the per-group calls, returns the concatenation
    along the channel axis of exactly [split] convolutions, in order: the
    i-th convolves the i-th part of the input, split along the channel
    axis, with the i-th part of [W], split along its last axis.  Each part
    of the input meets its own part of the kernel and no other. *)
Theorem loop_groups_are_aligned :
  ∀ (E : Env) inputs filters kernel_size a s dil df sh c kernel_shape stride
    dilations,
    group_conv_ready inputs filters kernel_size a dil df sh c kernel_shape
      stride dilations →
    split a ≠ 1 →
    ver_geb get_tf_version_tuple (1, 13)%nat = false →
    let channel_axis := if String.eqb df "NHWC" then 3 else 1 in
    let W := Op_variable (W_record a kernel_shape c filters) in
    Forall (λ ik : tensor * tensor,
              conv2d_raises ik.1 ik.2 stride (upper (padding a)) df
                dilations = None)
           (zip (tf_split inputs (split a) channel_axis)
                (tf_split W (split a) 3)) →
    ∃ r s' outputs,
      Conv2D inputs filters kernel_size a s = (Ok r, s')
      ∧ conv_core (ret r) = Op_concat outputs channel_axis
      ∧ length outputs = Z.to_nat (split a)
      ∧ ∀ i : nat,
          (i < Z.to_nat (split a))%nat →
          outputs !! i
          = Some (Op_conv2d
                    (Op_split_part inputs (split a) channel_axis i)
                    (Op_split_part W (split a) 3 i)
                    stride (upper (padding a)) df dilations).
Proof.
  intros E inputs filters kernel_size a s dil df sh c kernel_shape stride
    dilations Hready Hg Hv channel_axis W Hok.
  eexists _, _, _. split.
  { by apply (Conv2D_loop_fallback _ _ _ _ _ _ _ _ _ _ _ _ Hready). }
  split; [by rewrite conv_core_own_result|].
  split.
  - by rewrite length_fmap, length_zip_with, !length_tf_split, Nat.min_id.
  - intros i Hi. rewrite list_lookup_fmap, lookup_zip_with.
    by rewrite !lookup_tf_split.
Qed.

Lemma loop_groups_are_aligned_witness :
  let E := ref_env (1, 4)%nat sample_shape false in
  let W := Op_variable (W_record grouped_kwargs [3; 3] 4 6) in
  ∃ r s' outputs,
    Conv2D (Input 0) 6 (PInt 3) grouped_kwargs [] = (Ok r, s')
    ∧ conv_core (ret r) = Op_concat outputs 3
    ∧ length outputs = 2%nat
    ∧ ∀ i : nat,
        (i < 2)%nat →
        outputs !! i
        = Some (Op_conv2d (Op_split_part (Input 0) 2 3 i)
                  (Op_split_part W 2 3 i) [1; 1; 1; 1] "SAME" "NHWC" None).
Proof.
  intros E W.
  apply (loop_groups_are_aligned E (Input 0) 6 (PInt 3) grouped_kwargs []
           [1; 1] "NHWC" [None; Some 8; Some 8; Some 4] 4 [3; 3]
           [1; 1; 1; 1] None).
  - unfold group_conv_ready. repeat split; try reflexivity.
    + discriminate.
    + by left.
  - discriminate.
  - reflexivity.
  - repeat constructor.
Defined.

(** ** The direct calls of lines 133 and 138 *)

(** X4. A call that passes the checks and is either ungrouped (so dilated)
    or runs on version (1,13) or later returns, when the framework accepts
    the call, a single [tf.nn.conv2d] of the whole input with [W]: no
    [tf.split] and no [tf.concat] is built. *)
Theorem direct_call_is_single_conv2d :
  ∀ (E : Env) inputs filters kernel_size a s dil df sh c kernel_shape stride
    dilations,
    group_conv_ready inputs filters kernel_size a dil df sh c kernel_shape
      stride dilations →
    split a = 1 ∨ ver_geb get_tf_version_tuple (1, 13)%nat = true →
    let W := W_record a kernel_shape c filters in
    let conv := Op_conv2d inputs (Op_variable W) stride (upper (padding a))
                  df dilations in
    conv2d_raises inputs (Op_variable W) stride (upper (padding a)) df
      dilations = None →
    ∃ r, Conv2D inputs filters kernel_size a s
         = (Ok r, s ++ created (use_bias a) W (b_record a filters))
         ∧ conv_core (ret r) = conv
         ∧ conv2d_calls (ret r) = [conv].
Proof.
  intros E inputs filters kernel_size a s dil df sh c kernel_shape stride
    dilations Hready Hcase W conv Hok.
  exists (own_result a df conv W (b_record a filters)).
  assert (Hcore : conv_core (ret (own_result a df conv W (b_record a filters)))
                  = conv) by apply conv_core_own_result.
  split; [|split; [done|]].
  - rewrite (Conv2D_ready_run _ _ _ _ s _ _ _ _ _ _ _ Hready).
    destruct (decide (split a = 1)) as [H1|Hne].
    + erewrite bind_Ok; [done|].
      rewrite group_conv_single by done.
      unfold tf_nn_conv2d. unfold W in Hok. by rewrite Hok.
    + destruct Hcase as [?|Hv]; [done|].
      erewrite bind_Ok; [done|]. by apply group_conv_direct.
  - unfold conv2d_calls. by rewrite Hcore.
Qed.

Lemma direct_call_is_single_conv2d_witness :
  let E := ref_env (1, 5)%nat sample_shape true in
  let W := W_record dilated_kwargs [3; 3] 4 6 in
  let conv := Op_conv2d (Input 0) (Op_variable W) [1; 1; 1; 1] "SAME" "NHWC"
                (Some [1; 2; 2; 1]) in
  ∃ r, Conv2D (Input 0) 6 (PInt 3) dilated_kwargs []
       = (Ok r, [] ++ created true W (b_record dilated_kwargs 6))
       ∧ conv_core (ret r) = conv
       ∧ conv2d_calls (ret r) = [conv].
Proof.
  intros E W conv.
  apply (direct_call_is_single_conv2d E (Input 0) 6 (PInt 3) dilated_kwargs
           [] [2; 2] "NHWC" [None; Some 8; Some 8; Some 4] 4 [3; 3]
           [1; 1; 1; 1] (Some [1; 2; 2; 1])).
  - unfold group_conv_ready. repeat split; try reflexivity.
    + discriminate.
    + by right.
  - by left.
  - reflexivity.
Defined.

(** ** What the [tf.nn.conv2d] calls are given *)

Lemma Forall_loop_conv_calls (P : tensor → Prop) inputs W groups channel_axis
    stride pad df dil :
  (∀ i k, i ∈ tf_split inputs groups channel_axis →
          k ∈ tf_split W groups 3 →
          P (Op_conv2d i k stride pad df dil)) →
  Forall P (conv2d_calls
              (loop_conv inputs W groups channel_axis stride pad df dil)).
Proof.
  intros HP. unfold conv2d_calls, loop_conv. simpl.
  apply Forall_fmap, Forall_forall. intros [i k] Hin. simpl.
  apply HP.
  - by apply elem_of_zip_l in Hin.
  - by apply elem_of_zip_r in Hin.
Qed.

(** X5. In every result of the group-conv path, each [tf.nn.conv2d] call
    was given the strides [shape4d(strides)], the padding in upper case and
    the normalised data format; it was given the [dilations] keyword,
    [shape4d(dilation_rate)], exactly from version (1,5) on, and below that
    version the dilation rate of a call that returns is (1,1).  For a
    positive [split] there is at least one such call. *)
Theorem conv2d_calls_keywords :
  ∀ (E : Env) inputs filters kernel_size a s dil r s',
    shape2d (dilation_rate a) = Ok dil →
    fast_path a dil = false →
    Conv2D inputs filters kernel_size a s = (Ok r, s') →
    ∃ df stride dilations,
      get_data_format (data_format a) = Ok df
      ∧ shape4d (strides a) df = Ok stride
      ∧ (if ver_geb get_tf_version_tuple (1, 5)%nat
         then ∃ d, shape4d (PSeq dil) df = Ok d ∧ dilations = Some d
         else dilations = None ∧ dil = [1; 1])
      ∧ Forall (λ t, ∃ i k, t = Op_conv2d i k stride (upper (padding a)) df
                                  dilations)
               (conv2d_calls (ret r))
      ∧ (0 < split a → conv2d_calls (ret r) ≠ []).
Proof.
  intros E inputs filters kernel_size a s dil r s' Hdil Hslow Hrun.
  apply Conv2D_Ok_cases in Hrun as (dil' & Hdil' & Hcases).
  rewrite Hdil in Hdil'. injection Hdil' as <-. rewrite Hslow in Hcases.
  destruct Hcases as (df & sh & c & kernel_shape & stride & dilations & conv
                      & Hready & -> & _ & Hconv).
  destruct Hready as (_ & _ & Hdf & _ & _ & _ & _ & _ & _ & Hver & _ & Hstride
                      & Hdilations).
  exists df, stride, dilations. split; [done|]. split; [done|].
  split.
  { revert Hdilations. unfold dilations_kwarg.
    destruct (ver_geb get_tf_version_tuple (1, 5)%nat).
    - destruct (shape4d (PSeq dil) df) as [d|]; [|done].
      intros [= <-]. eauto.
    - intros [= <-]. by destruct Hver. }
  assert (Hcalls : conv2d_calls
                     (ret (own_result a df conv
                             (W_record a kernel_shape c filters)
                             (b_record a filters)))
                   = conv2d_calls conv).
  { unfold conv2d_calls. by rewrite conv_core_own_result. }
  rewrite Hcalls.
  assert (Hdirect : ∀ i k,
            conv = Op_conv2d i k stride (upper (padding a)) df dilations →
            Forall (λ t, ∃ i k, t = Op_conv2d i k stride (upper (padding a))
                                      df dilations) (conv2d_calls conv)
            ∧ (0 < split a → conv2d_calls conv ≠ [])).
  { intros i k ->. split; [|done]. repeat constructor. eauto. }
  destruct (Z.eqb_spec (split a) 1) as [H1|Hne]; [by eapply Hdirect|].
  destruct (ver_geb get_tf_version_tuple (1, 13)%nat); [by eapply Hdirect|].
  subst conv. split.
  - apply Forall_loop_conv_calls. eauto.
  - intros Hpos Hnil. apply (f_equal length) in Hnil.
    unfold conv2d_calls, loop_conv in Hnil. simpl in Hnil.
    rewrite length_fmap, length_zip_with, !length_tf_split, Nat.min_id in Hnil.
    lia.
Qed.

Lemma conv2d_calls_keywords_witness :
  let E := ref_env (1, 5)%nat sample_shape false in
  ∃ r s',
    Conv2D (Input 0) 6 (PInt 3) grouped_kwargs [] = (Ok r, s')
    ∧ ∃ df stride dilations,
        get_data_format "channels_last" = Ok df
        ∧ shape4d (PSeq [1; 1]) df = Ok stride
        ∧ (∃ d, shape4d (PSeq [1; 1]) df = Ok d ∧ dilations = Some d)
        ∧ Forall (λ t, ∃ i k, t = Op_conv2d i k stride "SAME" df dilations)
                 (conv2d_calls (ret r))
        ∧ (0 < 2 → conv2d_calls (ret r) ≠ []).
Proof.
  intros E. eexists _, _. split; [vm_compute; reflexivity|].
  eapply (conv2d_calls_keywords E (Input 0) 6 (PInt 3) grouped_kwargs []
            [1; 1]); [reflexivity | reflexivity |].
  vm_compute. reflexivity.
Defined.

(** ** The parameters held are the parameters used *)

(** X6. In every result of [Conv2D], the tensor held as [W] is the kernel
    the computation uses, and the tensor held as [b], if any, is the bias
    it adds.  On the framework-layer path they are the layer's kernel and
    bias.  On the group-conv path every [tf.nn.conv2d] call filters with
    the held [W] or with a part of it split along its last axis, the bias
    is added to the convolution exactly when [b] is held, the activation is
    applied after the bias, and the result is named [output]. *)
Theorem held_parameters_are_used :
  ∀ (E : Env) inputs filters kernel_size a s r s',
    Conv2D inputs filters kernel_size a s = (Ok r, s') →
    ∃ dil Wt,
      shape2d (dilation_rate a) = Ok dil
      ∧ held r "W" = Some Wt
      ∧ if fast_path a dil then
          ret r
          = Op_identity
              (Op_layer LConv2D (Conv2D_cfg filters kernel_size a dil)
                 inputs Wt (held r "b")) "output"
        else
          ∃ df,
            get_data_format (data_format a) = Ok df
            ∧ ret r
              = Op_identity
                  (activate (activation a)
                     (add_bias (held r "b") (conv_core (ret r)) df))
                  "output"
            ∧ Forall (λ t, ∃ i k st p d dl,
                        t = Op_conv2d i k st p d dl
                        ∧ (k = Wt ∨ ∃ j, k = Op_split_part Wt (split a) 3 j))
                     (conv2d_calls (ret r)).
Proof.
  intros E inputs filters kernel_size a s r s' Hrun.
  apply Conv2D_Ok_cases in Hrun as (dil & Hdil & Hcases).
  exists dil. destruct (fast_path a dil).
  - destruct Hcases as [-> _].
    exists (Op_variable (layer_W_record (Conv2D_cfg filters kernel_size a dil))).
    split; [done|]. unfold held, wrapped_result. simpl.
    destruct (use_bias a); by repeat split.
  - destruct Hcases as (df & sh & c & kernel_shape & stride & dilations & conv
                        & Hready & -> & _ & Hconv).
    destruct Hready as (_ & _ & Hdf & _).
    exists (Op_variable (W_record a kernel_shape c filters)).
    split; [done|].
    assert (Hcore : conv_core conv = conv).
    { destruct (split a =? 1); [by subst conv|].
      destruct (ver_geb _ _); by subst conv. }
    split.
    { unfold held, own_result. simpl. by destruct (use_bias a). }
    exists df. split; [done|]. split.
    { rewrite conv_core_own_result, Hcore.
      unfold held, own_result, add_bias, activate. simpl.
      by destruct (use_bias a), (activation a). }
    assert (Hcalls : conv2d_calls
                       (ret (own_result a df conv
                               (W_record a kernel_shape c filters)
                               (b_record a filters)))
                     = conv2d_calls conv).
    { unfold conv2d_calls. by rewrite conv_core_own_result. }
    rewrite Hcalls.
    assert (Hdirect :
              conv = Op_conv2d inputs
                       (Op_variable (W_record a kernel_shape c filters))
                       stride (upper (padding a)) df dilations →
              Forall (λ t, ∃ i k st p d dl,
                        t = Op_conv2d i k st p d dl
                        ∧ (k = Op_variable (W_record a kernel_shape c filters)
                           ∨ ∃ j, k = Op_split_part
                                        (Op_variable
                                           (W_record a kernel_shape c filters))
                                        (split a) 3 j))
                     (conv2d_calls conv)).
    { intros ->. repeat constructor. eauto 10. }
    destruct (split a =? 1); [by apply Hdirect|].
    destruct (ver_geb _ _); [by apply Hdirect|].
    subst conv. apply Forall_loop_conv_calls.
    intros i k _ Hk. unfold tf_split in Hk.
    apply list_elem_of_fmap in Hk as (j & -> & _). eauto 12.
Qed.

Lemma held_parameters_are_used_witness :
  let E := ref_env (1, 4)%nat sample_shape false in
  ∃ r s',
    Conv2D (Input 0) 6 (PInt 3) grouped_kwargs [] = (Ok r, s')
    ∧ ∃ dil Wt,
        shape2d (dilation_rate grouped_kwargs) = Ok dil
        ∧ held r "W" = Some Wt
        ∧ if fast_path grouped_kwargs dil then
            ret r
            = Op_identity
                (Op_layer LConv2D (Conv2D_cfg 6 (PInt 3) grouped_kwargs dil)
                   (Input 0) Wt (held r "b")) "output"
          else
            ∃ df,
              get_data_format (data_format grouped_kwargs) = Ok df
              ∧ ret r
                = Op_identity
                    (activate (activation grouped_kwargs)
                       (add_bias (held r "b") (conv_core (ret r)) df))
                    "output"
              ∧ Forall (λ t, ∃ i k st p d dl,
                          t = Op_conv2d i k st p d dl
                          ∧ (k = Wt
                             ∨ ∃ j, k = Op_split_part Wt
                                          (split grouped_kwargs) 3 j))
                       (conv2d_calls (ret r)).
Proof.
  intros E. eexists _, _. split; [vm_compute; reflexivity|].
  eapply (held_parameters_are_used E (Input 0) 6 (PInt 3) grouped_kwargs []).
  vm_compute. reflexivity.
Defined.

(** ** The kernel initializer and the seed *)

(** X7. The [seed] argument only feeds the default kernel initializer:
    with an explicit [kernel_initializer], a call of [Conv2D] or
    [Conv2DTranspose] with any other seed has the same outcome, on every
    path and from every store. *)
Theorem seed_is_ignored_with_explicit_initializer :
  (∀ (E : Env) inputs filters kernel_size a s sd k,
     kernel_initializer a = Some k →
     Conv2D inputs filters kernel_size (with_seed a sd) s
     = Conv2D inputs filters kernel_size a s)
  ∧ (∀ (E : Env) inputs filters kernel_size a s sd k,
       T_kernel_initializer a = Some k →
       Conv2DTranspose inputs filters kernel_size (T_with_seed a sd) s
       = Conv2DTranspose inputs filters kernel_size a s).
Proof.
  split.
  - intros E inputs filters kernel_size a s sd k Hk.
    unfold Conv2D, resolve_kernel_initializer, with_seed. simpl.
    by rewrite Hk.
  - intros E inputs filters kernel_size a s sd k Hk.
    unfold Conv2DTranspose, resolve_kernel_initializer, T_with_seed. simpl.
    by rewrite Hk.
Qed.

Lemma seed_is_ignored_with_explicit_initializer_witness :
  let E := ref_env (1, 4)%nat sample_shape false in
  let a := with_kernel_initializer grouped_kwargs (user_initializer 7) in
  Conv2D (Input 0) 6 (PInt 3) (with_seed a (Some 42)) []
  = Conv2D (Input 0) 6 (PInt 3) a [].
Proof.
  intros E a.
  apply (proj1 seed_is_ignored_with_explicit_initializer E (Input 0) 6
           (PInt 3) a [] (Some 42) (user_initializer 7)).
  reflexivity.
Defined.

(** X8. An explicit [kernel_initializer] is used as given, at every
    version: in every result of [Conv2D] and of [Conv2DTranspose] the
    variable held as [W] has it as initializer. *)
Theorem explicit_kernel_initializer_is_used :
  (∀ (E : Env) inputs filters kernel_size a s r s' k,
     kernel_initializer a = Some k →
     Conv2D inputs filters kernel_size a s = (Ok r, s') →
     ∃ W, holds_variable (variables r) "W" "W" W
          ∧ var_initializer W = Some k)
  ∧ (∀ (E : Env) inputs filters kernel_size a s r s' k,
       T_kernel_initializer a = Some k →
       Conv2DTranspose inputs filters kernel_size a s = (Ok r, s') →
       ∃ W, holds_variable (variables r) "W" "W" W
            ∧ var_initializer W = Some k).
Proof.
  split.
  - intros E inputs filters kernel_size a s r s' k Hk Hrun.
    apply Conv2D_Ok_cases in Hrun as (dil & _ & Hcases).
    destruct (fast_path a dil).
    + destruct Hcases as [-> _].
      exists (layer_W_record (Conv2D_cfg filters kernel_size a dil)).
      unfold wrapped_result, holds_variable. simpl. rewrite Hk.
      by destruct (use_bias a).
    + destruct Hcases as (df & ? & c & kernel_shape & ? & ? & conv
                          & _ & -> & _).
      exists (W_record a kernel_shape c filters).
      unfold own_result, holds_variable. simpl. rewrite Hk.
      by destruct (use_bias a).
  - intros E inputs filters kernel_size a s r s' k Hk Hrun.
    apply Conv2DTranspose_Ok_cases in Hrun as (_ & -> & _).
    exists (layer_W_record (Conv2DTranspose_cfg filters kernel_size a)).
    unfold wrapped_result, holds_variable. simpl. rewrite Hk.
    by destruct (T_use_bias a).
Qed.

Lemma explicit_kernel_initializer_is_used_witness :
  let E := ref_env (1, 4)%nat sample_shape false in
  let a := with_kernel_initializer grouped_kwargs (user_initializer 7) in
  ∃ r s',
    Conv2D (Input 0) 6 (PInt 3) a [] = (Ok r, s')
    ∧ ∃ W, holds_variable (variables r) "W" "W" W
           ∧ var_initializer W = Some (user_initializer 7).
Proof.
  intros E a. eexists _, _. split; [vm_compute; reflexivity|].
  eapply (proj1 explicit_kernel_initializer_is_used E (Input 0) 6 (PInt 3) a
            []); [reflexivity|].
  vm_compute. reflexivity.
Defined.

(** ** Inputs the checks do not expect *)

Lemma py_index_out_of_range {A} (l : list A) (i : Z) :
  Z.of_nat (length l) ≤ i → py_index l i = Raise IndexError.
Proof.
  intros Hi. unfold py_index.
  destruct (Z.ltb_spec i 0) as [|_]; [lia|].
  destruct (Z.ltb_spec i 0) as [|_]; [lia|].
  rewrite lookup_ge_None_2; [done | lia].
Qed.

(** X9. On the group-conv path the input's static shape is read before any
    assertion: an input of unknown rank ends the call in the [ValueError]
    of [as_list], and an input whose rank does not reach the channel axis
    (3 for NHWC, 1 for NCHW) ends it in [IndexError]; neither creates a
    variable. *)
Theorem input_rank_is_not_asserted :
  ∀ (E : Env) inputs filters kernel_size a s dil df,
    shape2d (dilation_rate a) = Ok dil →
    fast_path a dil = false →
    get_data_format (data_format a) = Ok df →
    (get_shape inputs = None →
     Conv2D inputs filters kernel_size a s = (Raise ValueError, s))
    ∧ (∀ sh,
         get_shape inputs = Some sh →
         Z.of_nat (length sh) ≤ (if String.eqb df "NHWC" then 3 else 1) →
         Conv2D inputs filters kernel_size a s = (Raise IndexError, s)).
Proof.
  intros E inputs filters kernel_size a s dil df Hdil Hslow Hdf.
  unfold fast_path in Hslow. split.
  - intros Hsh. unfold Conv2D. rewrite Hdil; mstep.
    rewrite Hslow, Hdf; mstep. by rewrite Hsh.
  - intros sh Hsh Hlen. unfold Conv2D. rewrite Hdil; mstep.
    rewrite Hslow, Hdf; mstep. rewrite Hsh; simpl as_list; mstep.
    by rewrite py_index_out_of_range.
Qed.

Lemma input_rank_is_not_asserted_witness :
  @Conv2D (ref_env (1, 13)%nat None true) (Input 0) 6 (PInt 3)
    grouped_kwargs []
  = (Raise ValueError, [])
  ∧ @Conv2D (ref_env (1, 13)%nat (Some [None; Some 8; Some 8]) true)
      (Input 0) 6 (PInt 3) grouped_kwargs []
    = (Raise IndexError, []).
Proof.
  split.
  - apply (proj1 (input_rank_is_not_asserted (ref_env (1, 13)%nat None true)
                    (Input 0) 6 (PInt 3) grouped_kwargs [] [1; 1] "NHWC"
                    eq_refl eq_refl eq_refl)).
    reflexivity.
  - apply (proj2 (input_rank_is_not_asserted
                    (ref_env (1, 13)%nat (Some [None; Some 8; Some 8]) true)
                    (Input 0) 6 (PInt 3) grouped_kwargs [] [1; 1] "NHWC"
                    eq_refl eq_refl eq_refl)
             [None; Some 8; Some 8]); [reflexivity|].
    simpl. lia.
Defined.

(** X10. [split = 0] is not rejected by an assertion of its own: the call
    takes the group-conv path and, past the data format and the input's
    shape, ends in [ZeroDivisionError] at [in_channel % split] when the
    channel count is known, and in the [AssertionError] of the line before
    when it is not; no variable is created. *)
Theorem split_zero_divides_by_zero :
  ∀ (E : Env) inputs filters kernel_size a s dil df sh in_channel,
    split a = 0 →
    shape2d (dilation_rate a) = Ok dil →
    get_data_format (data_format a) = Ok df →
    get_shape inputs = Some sh →
    py_index sh (if String.eqb df "NHWC" then 3 else 1) = Ok in_channel →
    Conv2D inputs filters kernel_size a s
    = (Raise match in_channel with
             | Some _ => ZeroDivisionError
             | None => AssertionError
             end, s).
Proof.
  intros E inputs filters kernel_size a s dil df sh in_channel Hz Hdil Hdf
    Hsh Hidx.
  unfold Conv2D. rewrite Hdil; mstep. rewrite Hz.
  change (0 =? 1) with false. rewrite andb_false_l.
  rewrite Hdf; mstep. rewrite Hsh; simpl as_list; mstep.
  rewrite Hidx; mstep. by destruct in_channel.
Qed.

Lemma split_zero_divides_by_zero_witness :
  @Conv2D (ref_env (1, 13)%nat sample_shape true) (Input 0) 6 (PInt 3)
    (with_split Conv2D_defaults 0) []
  = (Raise ZeroDivisionError, []).
Proof.
  apply (split_zero_divides_by_zero (ref_env (1, 13)%nat sample_shape true)
           (Input 0) 6 (PInt 3) (with_split Conv2D_defaults 0) [] [1; 1]
           "NHWC" [None; Some 8; Some 8; Some 4] (Some 4));
    reflexivity.
Defined.

(** ** [Conv2DTranspose] above version (1,12) *)

(** X11. Above version (1,12) no call of [Conv2DTranspose] returns and none
    creates a variable.  With no regularizer, a recognised data format,
    two strides and a 4-d input, the assertion and the shape computations
    of lines 225-251 pass and the call ends in the [TypeError] of line 252,
    where [float32_variable_storage_getter] is called without [getter] and
    [name]. *)
Theorem Conv2DTranspose_above_1_12_raises :
  ∀ (E : Env) inputs filters kernel_size a s,
    ver_leb get_tf_version_tuple (1, 12)%nat = false →
    (∃ e, Conv2DTranspose inputs filters kernel_size a s = (Raise e, s))
    ∧ (∀ df s0 s1 n h w c kernel_shape,
         T_kernel_regularizer a = None →
         T_bias_regularizer a = None →
         T_activity_regularizer a = None →
         get_data_format (T_data_format a) = Ok df →
         shape2d (T_strides a) = Ok [s0; s1] →
         get_shape inputs = Some [n; h; w; c] →
         shape2d kernel_size = Ok kernel_shape →
         Conv2DTranspose inputs filters kernel_size a s
         = (Raise TypeError, s)).
Proof.
  intros E inputs filters kernel_size a s Hver.
  split; [by apply Conv2DTranspose_new_never_returns|].
  intros df s0 s1 n h w c kernel_shape Hr1 Hr2 Hr3 Hdf Hst Hsh Hks.
  unfold Conv2DTranspose. rewrite Hver, Hr1, Hr2, Hr3.
  rewrite !bool_decide_eq_true_2 by done. simpl andb. mstep.
  rewrite Hdf; mstep. rewrite Hst; mstep. rewrite Hsh.
  destruct (String.eqb df "NCHW"); simpl; mstep; by rewrite Hks.
Qed.

Lemma Conv2DTranspose_above_1_12_raises_witness :
  @Conv2DTranspose (ref_env (2, 0)%nat sample_shape true) (Input 0) 6
    (PInt 3) Conv2DTranspose_defaults []
  = (Raise TypeError, []).
Proof.
  apply (proj2 (Conv2DTranspose_above_1_12_raises
                  (ref_env (2, 0)%nat sample_shape true) (Input 0) 6 (PInt 3)
                  Conv2DTranspose_defaults [] eq_refl)
           "NHWC" 1 1 None (Some 8) (Some 8) (Some 4) [3; 3]);
    reflexivity.
Defined.

(** ** The custom getter, applied twice *)

(** X12. [float32_variable_storage_getter] is idempotent as a wrapper:
    wrapping a getter twice, as nested scopes with the same custom getter
    do, gives the same variable, the same cast and the same store as
    wrapping it once.  The inner application stores at the dtype the outer
    one asks for and adds no cast of its own. *)
Theorem float32_variable_storage_getter_idempotent :
  ∀ (getter : getter_t) name shape dtype initializer regularizer trainable s,
    float32_variable_storage_getter
      (float32_variable_storage_getter getter) name shape dtype initializer
      regularizer trainable s
    = float32_variable_storage_getter getter name shape dtype initializer
        regularizer trainable s.
Proof.
  intros getter name shape dtype initializer regularizer trainable s.
  unfold float32_variable_storage_getter, mbind, M_bind.
  destruct trainable; simpl.
  - by destruct (getter _ _ _ _ _ _ s) as [[v|e] s1].
  - by destruct (getter _ _ _ _ _ _ s) as [[v|e] s1].
Qed.

(** ** The bias of the group-conv implementation *)

(** X13. Once the checks of the group-conv path have passed, the call adds
    to the store [W] and then, only with [use_bias], a bias [b] of shape
    [[filters]], one entry per output channel whatever [split] is, with the
    call's [bias_initializer]; both are trainable and carry no regularizer.
    This holds whether the convolution step then returns or raises. *)
Theorem group_conv_bias_variable :
  ∀ (E : Env) inputs filters kernel_size a s dil df sh c kernel_shape stride
    dilations,
    group_conv_ready inputs filters kernel_size a dil df sh c kernel_shape
      stride dilations →
    ∃ W b,
      (Conv2D inputs filters kernel_size a s).2
      = s ++ W :: (if use_bias a then [b] else [])
      ∧ var_name b = "b"
      ∧ var_shape b = Some (ExplicitShape [dim_int filters])
      ∧ var_initializer b = Some (bias_initializer a)
      ∧ var_regularizer W = None ∧ var_regularizer b = None
      ∧ var_trainable W = true ∧ var_trainable b = true.
Proof.
  intros E inputs filters kernel_size a s dil df sh c kernel_shape stride
    dilations Hready.
  exists (W_record a kernel_shape c filters), (b_record a filters).
  split; [|done].
  apply (Conv2D_ready_store _ _ _ _ s _ _ _ _ _ _ _ Hready).
Qed.

Lemma group_conv_bias_variable_witness :
  let E := ref_env (1, 13)%nat sample_shape false in
  ∃ W b,
    (Conv2D (Input 0) 6 (PInt 3) grouped_kwargs []).2
    = [] ++ W :: (if use_bias grouped_kwargs then [b] else [])
    ∧ var_name b = "b"
    ∧ var_shape b = Some (ExplicitShape [dim_int 6])
    ∧ var_initializer b = Some (bias_initializer grouped_kwargs)
    ∧ var_regularizer W = None ∧ var_regularizer b = None
    ∧ var_trainable W = true ∧ var_trainable b = true.
Proof.
  intros E.
  apply (group_conv_bias_variable E (Input 0) 6 (PInt 3) grouped_kwargs []
           [1; 1] "NHWC" [None; Some 8; Some 8; Some 4] 4 [3; 3]
           [1; 1; 1; 1] (Some [1; 1; 1; 1])).
  unfold group_conv_ready. repeat split; try reflexivity.
  - discriminate.
  - by left.
Defined.
